(** * crvusdsim: state logging, sweep-argument parsing and band seeding

    A shallow embedding of

    - [crvusdsim/sim/__init__.py]            ([autosim], [_parse_arguments]),
    - [crvusdsim/metrics/state_log/state_log.py] ([StateLog]),
    - [crvusdsim/pool/sim_interface/sim_aggregator.py]
      ([SimAggregateStablePrice.prepare_for_run]),

    together with a model of the band-initialisation strategy, whose
    code is exercised by [test/sim_interface/test_bands_strategy.py]. *)

From stdpp Require Import base option list strings gmap.
From Stdlib Require Import ZArith Lia.

Set Warnings "-register-all".
Local Open Scope string_scope.
Local Open Scope Z_scope.

(** ** Python values, exceptions and dictionaries *)

Module Py.

(** A Python [float], kept as its IEEE-754 binary64 bit pattern; the
    operations on it are parameters wherever the code uses them. *)
Definition float64 : Type := Z.

(** The Python values that reach the embedded functions.  [PyObj] is an
    object seen through its attributes. *)
Inductive pyval : Type :=
| PyNone
| PyNaN
| PyBool (b : bool)
| PyInt (z : Z)
| PyFloat (bits : float64)
| PyStr (s : string)
| PyList (items : list pyval)
| PyDict (items : list (string * pyval))
| PyObj (attrs : list (string * pyval)).

(** The exceptions the embedded code can raise. *)
Inductive pyerr : Type :=
| TypeError (msg : string)
| KeyError (key : string)
| AttributeError (name : string)
| IndexError (msg : string)
| ValueError (msg : string).

Inductive result (A : Type) : Type :=
| Ok (a : A)
| Raise (e : pyerr).
Arguments Ok {A} a.
Arguments Raise {A} e.

Definition bind {A B} (r : result A) (k : A -> result B) : result B :=
  match r with
  | Ok a => k a
  | Raise e => Raise e
  end.

(** [[f(x) for x in xs]] for a fallible [f]: the first exception wins. *)
Fixpoint mapM {A B} (f : A -> result B) (xs : list A) : result (list B) :=
  match xs with
  | [] => Ok []
  | x :: xs' =>
      bind (f x) (fun y => bind (mapM f xs') (fun ys => Ok (y :: ys)))
  end.

(** A Python [dict] with string keys: insertion-ordered, keys unique. *)
Section Dict.
Context {V : Type}.

Fixpoint dict_get (k : string) (d : list (string * V)) : option V :=
  match d with
  | [] => None
  | (k', v) :: d' => if String.eqb k k' then Some v else dict_get k d'
  end.

(** [d[k] = v]: an existing key keeps its position. *)
Fixpoint dict_set (k : string) (v : V) (d : list (string * V))
  : list (string * V) :=
  match d with
  | [] => [(k, v)]
  | (k', v') :: d' =>
      if String.eqb k k' then (k', v) :: d' else (k', v') :: dict_set k v d'
  end.

(** [{**d, **kw}]: the items of [kw] are written into [d] in order. *)
Definition dict_update (d kw : list (string * V)) : list (string * V) :=
  fold_left (fun acc kv => dict_set kv.1 kv.2 acc) kw d.

(** [d[k]], raising [KeyError]. *)
Definition dict_getitem (k : string) (d : list (string * V)) : result V :=
  match dict_get k d with
  | Some v => Ok v
  | None => Raise (KeyError k)
  end.

(** The binding a keyword-argument list gives to [k] (the last one). *)
Fixpoint kw_last (k : string) (kw : list (string * V)) : option V :=
  match kw with
  | [] => None
  | (k', v) :: kw' =>
      match kw_last k kw' with
      | Some v' => Some v'
      | None => if String.eqb k k' then Some v else None
      end
  end.
End Dict.

(** [isinstance(v, int)]; [bool] is a subclass of [int]. *)
Definition isinstance_int (v : pyval) : bool :=
  match v with
  | PyInt _ | PyBool _ => true
  | _ => false
  end.

Definition type_name (v : pyval) : string :=
  match v with
  | PyNone => "NoneType"
  | PyNaN | PyFloat _ => "float"
  | PyBool _ => "bool"
  | PyInt _ => "int"
  | PyStr _ => "str"
  | PyList _ => "list"
  | PyDict _ => "dict"
  | PyObj _ => "object"
  end.

Fixpoint chars (s : string) : list pyval :=
  match s with
  | EmptyString => []
  | String c s' => PyStr (String c EmptyString) :: chars s'
  end.

(** [iter(v)] run to exhaustion: lists give their items, strings their
    characters, dicts their keys; anything else is not iterable. *)
Definition py_iter (v : pyval) : result (list pyval) :=
  match v with
  | PyList items => Ok items
  | PyStr s => Ok (chars s)
  | PyDict items => Ok (map (fun kv => PyStr kv.1) items)
  | _ => Raise (TypeError ("'" ++ type_name v ++ "' object is not iterable"))
  end.

(** [v == s] for a string literal [s]. *)
Definition eq_str (v : pyval) (s : string) : bool :=
  match v with
  | PyStr s' => String.eqb s' s
  | _ => false
  end.

(** [obj.name], raising [AttributeError]. *)
Definition getattr (name : string) (v : pyval) : result pyval :=
  match v with
  | PyObj attrs =>
      match dict_get name attrs with
      | Some a => Ok a
      | None => Raise (AttributeError name)
      end
  | _ => Raise (AttributeError name)
  end.

(** [bool(v)]: the falsy values are [None], [False], zero (for a float
    both zeros), and the empty string, list and dict. *)
Definition py_truthy (v : pyval) : bool :=
  match v with
  | PyNone => false
  | PyNaN => true
  | PyBool b => b
  | PyInt z => negb (z =? 0)
  | PyFloat bits => negb ((bits =? 0) || (bits =? 2 ^ 63))
  | PyStr s => negb (String.eqb s EmptyString)
  | PyList items => negb (Nat.eqb (length items) 0)
  | PyDict items => negb (Nat.eqb (length items) 0)
  | PyObj _ => true
  end.

(** The three simulation modes the code branches on. *)
Definition recognized_mode (sim_mode : pyval) : bool :=
  eq_str sim_mode "pool" || eq_str sim_mode "controller" || eq_str sim_mode "N".

End Py.

(** ** [crvusdsim/sim/__init__.py] *)

Module Sim.
Import Py.

(** The strategy functions imported from [bands_strategy]; here only
    their identity matters. *)
Inductive bands_strategy_fn : Type :=
| init_y_bands_strategy
| one_user_bands_strategy
| user_loans_strategy.

(** [input_args] and [bands_strategy] as chosen by the [if]/[elif] chain. *)
Definition select_mode (sim_mode : pyval)
  : list string * option bands_strategy_fn :=
  if eq_str sim_mode "pool" then
    (["A"; "fee"; "admin_fee"], Some init_y_bands_strategy)
  else if eq_str sim_mode "controller" then
    (["loan_discount"; "liquidation_discount"], Some user_loans_strategy)
  else if eq_str sim_mode "N" then
    (["N"], Some one_user_bands_strategy)
  else ([], None).

Definition key_in (key : string) (input_args : list string) : bool :=
  existsb (String.eqb key) input_args.

(** The [for key, val in kwargs.items()] loop. *)
Fixpoint parse_loop (input_args : list string) (kwargs : list (string * pyval))
    (variable_params : list (string * pyval))
  : result (list (string * pyval)) :=
  match kwargs with
  | [] => Ok variable_params
  | (key, val) :: kwargs' =>
      if key_in key input_args then
        bind (py_iter val) (fun vs =>
          if forallb isinstance_int vs then
            parse_loop input_args kwargs' (dict_set key val variable_params)
          else
            Raise (TypeError
                     ("Argument " ++ key ++ " must be an int or iterable of ints")))
      else parse_loop input_args kwargs' variable_params
  end.

Definition _parse_arguments {Metadata : Type} (pool_metadata : Metadata)
    (sim_mode : pyval) (kwargs : list (string * pyval))
  : result (list (string * pyval) * option bands_strategy_fn) :=
  let '(input_args, bands_strategy) := select_mode sim_mode in
  bind (parse_loop input_args kwargs [])
       (fun variable_params => Ok (variable_params, bands_strategy)).

(** The keyword arguments whose key is a sweep parameter of the mode,
    and the test the loop applies to the value of each of them. *)
Definition sweep_kwargs (input_args : list string)
    (kwargs : list (string * pyval)) : list (string * pyval) :=
  filter (fun kv => key_in kv.1 input_args = true) kwargs.

Definition sweep_value_ok (val : pyval) : bool :=
  match py_iter val with
  | Ok vs => forallb isinstance_int vs
  | Raise _ => false
  end.

(** How a call of [autosim] ends: with the pipeline's results, on the
    failed [assert], or on an exception raised further down. *)
Inductive autosim_outcome (Results : Type) : Type :=
| Returned (results : Results)
| AssertionFailed (msg : string)
| Raised (e : pyerr).
Arguments Returned {Results} results.
Arguments AssertionFailed {Results} msg.
Arguments Raised {Results} e.

Section Autosim.
Context {Metadata Results : Type}.
(** [get_metadata(pool, save_dir=save_dir)] and [pipeline(...)] belong to
    other modules. *)
Variable get_metadata : pyval -> pyval -> result Metadata.
Variable pipeline :
  Metadata -> pyval -> list (string * pyval) -> option bands_strategy_fn ->
  result Results.
(** The truth value of a metadata object, which its class decides (an
    empty container is falsy). *)
Variable truthy : Metadata -> bool.

(** [bool(pool_metadata)], where [pool_metadata] is [None] or an object. *)
Definition metadata_truthy (pool_metadata : option Metadata) : bool :=
  match pool_metadata with
  | Some md => truthy md
  | None => false
  end.

(** [pool_metadata or get_metadata(pool, save_dir=save_dir)] *)
Definition metadata_or_fetch (pool : pyval) (pool_metadata : option Metadata)
    (save_dir : pyval) : result Metadata :=
  match pool_metadata with
  | Some md => if truthy md then Ok md else get_metadata pool save_dir
  | None => get_metadata pool save_dir
  end.

Definition autosim (pool : pyval) (pool_metadata : option Metadata)
    (sim_mode : pyval) (save_dir : pyval) (kwargs : list (string * pyval))
  : autosim_outcome Results :=
  if negb (existsb id [py_truthy pool; metadata_truthy pool_metadata]) then
    AssertionFailed "Must input 'pool' or 'pool_metadata'"
  else
    match
      bind (metadata_or_fetch pool pool_metadata save_dir) (fun pool_metadata =>
      bind (_parse_arguments pool_metadata sim_mode kwargs)
           (fun '(p_var, bands_strategy) =>
      pipeline pool_metadata sim_mode p_var bands_strategy))
    with
    | Ok results => Returned results
    | Raise e => Raised e
    end.
End Autosim.

End Sim.

(** ** [crvusdsim/pool/sim_interface/sim_aggregator.py] *)

Module Aggregator.
Import Py.

(** A pandas price table: one entry per row, made of the row's index
    label and the values of its columns. *)
Definition Prices (Timestamp : Type) : Type :=
  list (Timestamp * list float64).

(** The two attributes the override writes, and whatever else the base
    class [AggregateStablePrice] keeps. *)
Record state (Base : Type) : Type := {
  last_price : Z;
  last_timestamp : Z;
  base : Base;
}.
Arguments last_price {Base} _.
Arguments last_timestamp {Base} _.
Arguments base {Base} _.

Definition set_last_price {Base} (v : Z) (s : state Base) : state Base :=
  {| last_price := v; last_timestamp := last_timestamp s; base := base s |}.

Definition set_last_timestamp {Base} (v : Z) (s : state Base) : state Base :=
  {| last_price := last_price s; last_timestamp := v; base := base s |}.

Section SimAggregateStablePrice.
Context {Timestamp Base : Type}.
(** [Timestamp.timestamp()], [float * int] and [int(float)] (which
    raises on [nan] and [inf]) are the interpreter's. *)
Variable timestamp : Timestamp -> float64.
Variable float_mul_int : float64 -> Z -> float64.
Variable py_int : float64 -> result Z.
(** [AggregateStablePrice.prepare_for_run], the overridden method. *)
Variable super_prepare_for_run :
  state Base -> Prices Timestamp -> bool -> result (state Base).

(** [prices.iloc[0, :].tolist()[0]] *)
Definition first_price (prices : Prices Timestamp) : result float64 :=
  match prices with
  | [] => Raise (IndexError "single positional indexer is out-of-bounds")
  | (_, row) :: _ =>
      match row with
      | [] => Raise (IndexError "list index out of range")
      | p :: _ => Ok p
      end
  end.

(** [prices.index[0]] *)
Definition first_index (prices : Prices Timestamp) : result Timestamp :=
  match prices with
  | [] => Raise (IndexError "index 0 is out of bounds for axis 0 with size 0")
  | (t, _) :: _ => Ok t
  end.

Definition prepare_for_run (self : state Base) (prices : Prices Timestamp)
    (keep_price : bool) : result (state Base) :=
  bind (super_prepare_for_run self prices keep_price) (fun self =>
  bind (if negb keep_price then
          bind (first_price prices) (fun p =>
          bind (py_int (float_mul_int p (10 ^ 18))) (fun initial_price =>
          Ok (set_last_price initial_price self)))
        else Ok self) (fun self =>
  bind (first_index prices) (fun t0 =>
  bind (py_int (timestamp t0)) (fun init_ts =>
  Ok (set_last_timestamp init_ts self))))).
End SimAggregateStablePrice.

End Aggregator.

(** ** [crvusdsim/metrics/state_log/state_log.py] *)

Module StateLogModel.
Import Py.

(** A pandas table as [get_logs] builds it, [DataFrame(data, index=...)]:
    the index labels and one datum per row. *)
Record Table : Type := {
  tbl_index : list pyval;
  tbl_data : list pyval;
}.

Definition is_mapping (v : pyval) : bool :=
  match v with
  | PyDict _ => true
  | _ => false
  end.

(** The values [len()] accepts. *)
Definition is_sized (v : pyval) : bool :=
  match v with
  | PyList _ | PyDict _ | PyStr _ => true
  | _ => false
  end.

(** The values pandas takes for list-like: an index made of lists is
    read as the levels of a hierarchical index, not as labels. *)
Definition list_like (v : pyval) : bool :=
  match v with
  | PyList _ | PyDict _ => true
  | _ => false
  end.

(** How pandas reads a list of rows depends on the first row: after a
    mapping every row is asked for its [keys()], after a list every row
    for its [len()]; otherwise the rows are taken as they are.  This is
    the exception the constructor then raises, if any. *)
Definition frame_error (data : list pyval) : option pyerr :=
  match data with
  | PyDict _ :: _ =>
      if forallb is_mapping data then None else Some (AttributeError "keys")
  | PyList _ :: _ =>
      if forallb is_sized data then None
      else Some (TypeError "object has no len()")
  | _ => None
  end.

(** [DataFrame(data, index=index)]; pandas also refuses an index whose
    length differs from the number of rows.  The labels are kept as
    given, which is what pandas does with labels that are not
    [list_like]. *)
Definition DataFrame (data index : list pyval) : result Table :=
  match frame_error data with
  | Some e => Raise e
  | None =>
      if Nat.eqb (length data) (length index) then
        Ok {| tbl_index := index; tbl_data := data |}
      else Raise (ValueError "Length of values does not match length of index")
  end.

(** One column of a table whose rows are dicts: the row's value under
    [field], [NaN] where the row has none. *)
Definition field_of (field : string) (row : pyval) : pyval :=
  match row with
  | PyDict d => default PyNaN (dict_get field d)
  | _ => PyNaN
  end.

(** pandas gives every column one dtype, inferred from all its cells,
    and converts each cell to it (ints next to a missing value become
    floats, for one).  The inference belongs to pandas: [infer_dtype
    cells] is the conversion it applies to a cell of the column [cells]. *)
Definition as_column (infer_dtype : list pyval -> pyval -> pyval)
    (cells : list pyval) : list pyval :=
  map (infer_dtype cells) cells.

Definition series (infer_dtype : list pyval -> pyval -> pyval)
    (field : string) (t : Table) : Table :=
  {| tbl_index := tbl_index t;
     tbl_data := as_column infer_dtype (map (field_of field) (tbl_data t)) |}.

(** The columns of [DataFrame(records)]: the keys of the records, in
    order of first appearance. *)
Definition add_column (cols : list string) (k : string) : list string :=
  if existsb (String.eqb k) cols then cols else cols ++ [k].

Definition df_columns (records : list (list (string * pyval))) : list string :=
  fold_left (fun cols r => fold_left add_column (map fst r) cols) records [].

(** [df[col].to_list()]: a record without the key contributes [NaN], and
    the cells come back in the dtype pandas gave the column. *)
Definition df_col_to_list (infer_dtype : list pyval -> pyval -> pyval)
    (records : list (list (string * pyval))) (col : string) : list pyval :=
  as_column infer_dtype (map (fun r => default PyNaN (dict_get col r)) records).

(** [{col: DataFrame(df[col].to_list(), index=times) for col in df}] *)
Fixpoint table_comprehension (infer_dtype : list pyval -> pyval -> pyval)
    (records : list (list (string * pyval)))
    (times : list pyval) (cols : list string) (acc : list (string * Table))
  : result (list (string * Table)) :=
  match cols with
  | [] => Ok acc
  | col :: cols' =>
      bind (DataFrame (df_col_to_list infer_dtype records col) times) (fun t =>
        table_comprehension infer_dtype records times cols'
          (dict_set col t acc))
  end.

(** [state["price_sample"].timestamp] *)
Definition record_time (state : list (string * pyval)) : result pyval :=
  bind (dict_getitem "price_sample" state) (getattr "timestamp").

Section StateLog.
(** The pool, the controller, the run parameters and the metric objects
    belong to other modules; so do the extractors called on them. *)
Context {Pool Controller Parameters Metric Frame : Type}.
(** The dtype inference of pandas, see [as_column]. *)
Variable infer_dtype : list pyval -> pyval -> pyval.
Variable get_pool_parameters : Pool -> pyval.
Variable get_controller_parameters : Controller -> pyval.
Variable get_N_parameters : Parameters -> pyval.
Variable get_pool_state : Pool -> pyval.
Variable get_controller_state : Pool -> Controller -> pyval.
Variable isinstance_PoolMetric : Metric -> bool.
Variable set_pool : Metric -> Pool -> Metric.
Variable compute : Metric -> list (string * Table) -> result (Frame * Frame).
Variable concat : list Frame -> result Frame.

(** The slots of a [StateLog]; a slot never assigned is [None]. *)
Record StateLog : Type := {
  metrics : list Metric;
  pool : Pool;
  controller : Controller;
  state_per_run : option pyval;
  state_per_trade : list (list (string * pyval));
  sim_mode : pyval;
}.

Definition prepare_metrics (metrics : list Metric) (pool : Pool) : list Metric :=
  map (fun metric =>
         if isinstance_PoolMetric metric then set_pool metric pool else metric)
      metrics.

Definition __init__ (pool : Pool) (controller : Controller)
    (metrics : list Metric) (parameters : Parameters) (sim_mode : pyval)
  : StateLog :=
  {| pool := pool;
     controller := controller;
     metrics := prepare_metrics metrics pool;
     sim_mode := sim_mode;
     state_per_trade := [];
     state_per_run :=
       if eq_str sim_mode "pool" then Some (get_pool_parameters pool)
       else if eq_str sim_mode "controller" then
         Some (get_controller_parameters controller)
       else if eq_str sim_mode "N" then Some (get_N_parameters parameters)
       else None |}.

(** Methods run on [self]: they may change it and may raise. *)
Definition M (A : Type) : Type := StateLog -> result A * StateLog.

Definition ret {A} (a : A) : M A := fun self => (Ok a, self).

Definition bindM {A B} (m : M A) (k : A -> M B) : M B :=
  fun self =>
    match m self with
    | (Ok a, self') => k a self'
    | (Raise e, self') => (Raise e, self')
    end.

Definition get_self : M StateLog := fun self => (Ok self, self).

Definition lift {A} (r : result A) : M A := fun self => (r, self).

(** [self.state_per_trade.append(record)] *)
Definition append (record : list (string * pyval)) : M unit :=
  fun self =>
    (Ok tt,
     {| metrics := metrics self;
        pool := pool self;
        controller := controller self;
        state_per_run := state_per_run self;
        state_per_trade := state_per_trade self ++ [record];
        sim_mode := sim_mode self |}).

(** [self.state_per_run], an [AttributeError] while the slot is unset. *)
Definition read_state_per_run : M pyval :=
  fun self =>
    match state_per_run self with
    | Some v => (Ok v, self)
    | None => (Raise (AttributeError "state_per_run"), self)
    end.

Definition update (kwargs : list (string * pyval)) : M unit :=
  bindM get_self (fun self =>
  bindM (if eq_str (sim_mode self) "pool" then
           append (dict_update [("state_data", get_pool_state (pool self))]
                               kwargs)
         else if eq_str (sim_mode self) "controller" then
           append (dict_update
                     [("state_data",
                       get_controller_state (pool self) (controller self))]
                     kwargs)
         else ret tt) (fun _ =>
  bindM get_self (fun self =>
  if eq_str (sim_mode self) "N" then
    append (dict_update
              [("state_data",
                get_controller_state (pool self) (controller self))]
              kwargs)
  else ret tt))).

Definition get_logs : M (list (string * Table)) :=
  bindM get_self (fun self =>
  let df := state_per_trade self in
  bindM (lift (mapM record_time (state_per_trade self))) (fun times =>
  bindM (lift (table_comprehension infer_dtype df times (df_columns df) []))
        (fun state_per_trade =>
  bindM read_state_per_run (fun spr =>
  bindM (lift (DataFrame [spr] [PyInt 0])) (fun sim_parameters =>
  ret (dict_update [("sim_parameters", sim_parameters)] state_per_trade)))))).

(** The transposition [zip] makes of the starred [metric_data], unpacked
    into two names; it fails on an empty list of metrics. *)
Definition transpose (metric_data : list (Frame * Frame))
  : result (list Frame * list Frame) :=
  match metric_data with
  | [] => Raise (ValueError "not enough values to unpack (expected 2, got 0)")
  | _ => Ok (map fst metric_data, map snd metric_data)
  end.

Definition compute_metrics : M (Table * Frame * Frame * Table) :=
  bindM get_logs (fun state_logs =>
  bindM get_self (fun self =>
  bindM (lift (mapM (fun metric => compute metric state_logs) (metrics self)))
        (fun metric_data =>
  bindM (lift (transpose metric_data)) (fun '(data_per_trade, summary_data) =>
  bindM (lift (dict_getitem "sim_parameters" state_logs)) (fun sim_parameters =>
  bindM (lift (concat data_per_trade)) (fun per_trade =>
  bindM (lift (concat summary_data)) (fun summary =>
  bindM (lift (dict_getitem "state_data" state_logs)) (fun state_data =>
  ret (sim_parameters, per_trade, summary, state_data))))))))).

(** The driver of a run: before each [update] the simulation has moved
    the pool and the controller, which the log only refers to. *)
Definition observe (p : Pool) (c : Controller) (self : StateLog) : StateLog :=
  {| metrics := metrics self;
     pool := p;
     controller := c;
     state_per_run := state_per_run self;
     state_per_trade := state_per_trade self;
     sim_mode := sim_mode self |}.

Fixpoint run_updates (calls : list (Pool * Controller * list (string * pyval)))
    (self : StateLog) : StateLog :=
  match calls with
  | [] => self
  | (p, c, kwargs) :: calls' =>
      run_updates calls' (update kwargs (observe p c self)).2
  end.

End StateLog.

(** A controller-mode run of two trades, the pool and the controller
    standing for a price and a debt. *)
Definition demo_calls : list (Z * Z * list (string * pyval)) :=
  [(2000, 5, [("price_sample", PyObj [("timestamp", PyInt 100)])]);
   (1990, 6, [("price_sample", PyObj [("timestamp", PyInt 160)]);
              ("volume", PyInt 3)])].

Definition demo_state (price debt : Z) : pyval :=
  PyDict [("price", PyInt price); ("debt", PyInt debt)].

Definition demo_log : StateLog (Pool := Z) (Controller := Z) (Metric := unit) :=
  run_updates (fun price => PyDict [("price", PyInt price)]) demo_state
    demo_calls
    (__init__ (fun _ => PyNone)
       (fun debt => PyDict [("loan_discount", PyInt debt)])
       (fun _ : unit => PyNone) (fun _ => false) (fun m _ => m)
       2010 4 [] tt (PyStr "controller")).

(** The bit pattern of the float that an int of magnitude below [2^53]
    converts to (exactly). *)
Definition float_of_small_int (z : Z) : float64 :=
  if z =? 0 then 0
  else
    let m := Z.abs z in
    let e := Z.log2 m in
    (if z <? 0 then 2 ^ 63 else 0) + (e + 1023) * 2 ^ 52
    + (m * 2 ^ (52 - e) - 2 ^ 52).

(** The inference used in the examples: a column of ints and floats that
    holds a float or a missing value is a float column. *)
Definition demo_numeric (v : pyval) : bool :=
  match v with
  | PyInt _ | PyFloat _ | PyNaN => true
  | _ => false
  end.

Definition demo_inexact (v : pyval) : bool :=
  match v with
  | PyFloat _ | PyNaN => true
  | _ => false
  end.

Definition demo_infer (cells : list pyval) (v : pyval) : pyval :=
  if forallb demo_numeric cells && existsb demo_inexact cells then
    match v with
    | PyInt z => PyFloat (float_of_small_int z)
    | _ => v
    end
  else v.


(** The same run with two metrics bound; a metric is known by its name,
    a frame by the names of its columns. *)
Definition demo_compute (metric : string) (logs : list (string * Table))
  : result (list string * list string) :=
  Ok ([metric], [metric ++ "_summary"]).

Definition demo_concat (frames : list (list string)) : result (list string) :=
  Ok (concat frames).

Definition demo_metric_log
  : StateLog (Pool := Z) (Controller := Z) (Metric := string) :=
  run_updates (fun price => PyDict [("price", PyInt price)]) demo_state
    demo_calls
    (__init__ (fun _ => PyNone)
       (fun debt => PyDict [("loan_discount", PyInt debt)])
       (fun _ : unit => PyNone) (fun _ => false) (fun m _ => m)
       2010 4 ["pool_value"; "oracle_error"] tt (PyStr "controller")).

End StateLogModel.

(** ** Band initialisation ([init_y_bands_strategy])

    The tests in [test/sim_interface/test_bands_strategy.py] call
    [init_y_bands_strategy(pool, prices, total_y=...)], which lives in a
    module whose code is not part of the embedded files, as do the
    pool's price queries. *)

Module BandSeeding.
Import Py.

(** Modelled from the spec: the pool class is missing.  After the pool
    interface of section 6: the band bounds, the per-band balances (a
    band without an entry holds 0) and the last oracle price. *)
Record pool : Type := {
  min_band : Z;
  max_band : Z;
  active_band : Z;
  bands_x : gmap Z Z;
  bands_y : gmap Z Z;
  price_last : Z;
}.

Definition balance (bands : gmap Z Z) (i : Z) : Z := default 0 (bands !! i).

(** Modelled from the spec: the failures of section 7 that concern the
    strategy; a price sample that does not convert is passed on. *)
Inductive seed_error : Type :=
| DegenerateInputError
| BandRangeNotFound
| BadPriceSample (e : pyerr).

Inductive outcome : Type :=
| Seeded (p : pool)
| Failed (e : seed_error).

Definition list_max (x : Z) (xs : list Z) : Z := fold_left Z.max xs x.
Definition list_min (x : Z) (xs : list Z) : Z := fold_left Z.min xs x.

(** [bands[i] = amount] for the [count] bands from [first] on. *)
Definition assign_bands (first : Z) (count : Z) (amount : Z)
    (bands : gmap Z Z) : gmap Z Z :=
  fold_left (fun acc i => <[i := amount]> acc) (seqZ first count) bands.

Section Strategy.
Context {Timestamp : Type}.
(** The pool's price queries, fixed-point integers scaled by [10^18];
    the bonding-curve code that computes them is missing. *)
Variable p_oracle_up : Z -> Z.
Variable p_oracle_down : Z -> Z.
(** [float * int] and [int(float)] are the interpreter's. *)
Variable float_mul_int : float64 -> Z -> float64.
Variable py_int : float64 -> result Z.
(** How many band counts the strategy is prepared to try. *)
Variable max_ticks : nat.
(** Where the strategy leaves the active band, from the pool it was
    given, the observed prices and the half-width chosen: the tests
    allow for [min_band] as for a band above it, and the code that
    decides is missing. *)
Variable place_active_band : pool -> list Z -> Z -> Z.

(** Modelled from the spec: the observed prices of section 6, the first
    column of the series with each value as [int(p * 10**18)]. *)
Definition observed (prices : Aggregator.Prices Timestamp) : result (list Z) :=
  mapM (fun entry : Timestamp * list float64 =>
          match entry.2 with
          | [] => Raise (IndexError "list index out of range")
          | p :: _ => py_int (float_mul_int p (10 ^ 18))
          end)
       prices.

(** Modelled from the spec: the choice of the band count of section 4.2,
    as the least half-width, counted up from [n], for which the range
    [centre - n .. centre + n] brackets the prices [lo .. hi]. *)
Fixpoint find_half_width (fuel : nat) (centre n hi lo : Z) : option Z :=
  match fuel with
  | O => None
  | S fuel' =>
      if (hi <=? p_oracle_up (centre - n)) && (p_oracle_down (centre + n) <=? lo)
      then Some n
      else find_half_width fuel' centre (n + 1) hi lo
  end.

(** Modelled from the spec: [init_y_bands_strategy] of
    [crvusdsim/pool_data/metadata/bands_strategy.py] is missing.  After
    the spec's sections 4.2 and 7: an empty series, a zero price spread,
    a price range reaching down to zero or a non-positive [total_y] is a
    [DegenerateInputError] and leaves the pool as it was; otherwise
    [total_y] is spread over a symmetric band range whose band count is
    chosen so that
    [p_oracle_up(min_band)] is at least the largest observed price and
    [p_oracle_down(max_band)] at most the smallest, and the seeded bands
    hold collateral only. *)
Definition init_y_bands_strategy (self : pool)
    (prices : Aggregator.Prices Timestamp) (total_y : Z) : outcome :=
  match observed prices with
  | Raise e => Failed (BadPriceSample e)
  | Ok [] => Failed DegenerateInputError
  | Ok (x :: xs) =>
      let hi := list_max x xs in
      let lo := list_min x xs in
      if (hi <=? lo) || (lo <=? 0) || (total_y <=? 0) then
        Failed DegenerateInputError
      else
        match find_half_width max_ticks (active_band self) 0 hi lo with
        | None => Failed BandRangeNotFound
        | Some n =>
            let first := active_band self - n in
            let count := 2 * n + 1 in
            Seeded {| min_band := first;
                      max_band := active_band self + n;
                      active_band := place_active_band self (x :: xs) n;
                      bands_x := assign_bands first count 0 (bands_x self);
                      bands_y :=
                        assign_bands first count (total_y / count) (bands_y self);
                      price_last := price_last self |}
        end
  end.

End Strategy.

(** A sample pool for the examples: amplification 100, base price 3000,
    the band prices falling by one percent per band. *)
Definition demo_p_oracle_up (n : Z) : Z :=
  if 0 <=? n then 3000 * 10 ^ 18 * 99 ^ n / 100 ^ n
  else 3000 * 10 ^ 18 * 100 ^ (- n) / 99 ^ (- n).

Definition demo_p_oracle_down (n : Z) : Z := demo_p_oracle_up (n + 1).

Definition demo_pool : pool :=
  {| min_band := 0; max_band := 0; active_band := 0;
     bands_x := ∅; bands_y := ∅; price_last := 3000 * 10 ^ 18 |}.

(** Three samples; in the examples a float is written as the integer it
    holds, so that the two interpreter operations are exact. *)
Definition demo_prices : Aggregator.Prices Z :=
  [(1700000000, [2900]); (1700000600, [2950]); (1700001200, [2800])].

Definition demo_float_mul_int (x : float64) (k : Z) : float64 := x * k.
Definition demo_py_int (x : float64) : result Z := Ok x.

(** In the examples the active band is put at the lowest seeded band. *)
Definition demo_place_active_band (self : pool) (obs : list Z) (n : Z) : Z :=
  active_band self - n.

End BandSeeding.

(** * Properties *)

(** ** Dictionaries *)

Module PyFacts.
Import Py.

Lemma eq_str_true (v : pyval) (s : string) : eq_str v s = true -> v = PyStr s.
Proof.
  destruct v; simpl; try discriminate.
  intros H. apply String.eqb_eq in H. now subst.
Qed.

Lemma recognized_mode_cases (v : pyval) :
  recognized_mode v = true ->
  v = PyStr "pool" \/ v = PyStr "controller" \/ v = PyStr "N".
Proof.
  unfold recognized_mode. intros H.
  apply orb_prop in H as [H | H]; [apply orb_prop in H as [H | H] |];
    apply eq_str_true in H; auto.
Qed.

Lemma unrecognized_mode_cases (v : pyval) :
  recognized_mode v = false ->
  eq_str v "pool" = false /\ eq_str v "controller" = false /\ eq_str v "N" = false.
Proof.
  unfold recognized_mode. intros H.
  apply orb_false_elim in H as [H ?]. apply orb_false_elim in H as [? ?]. auto.
Qed.

Section DictFacts.
Context {V : Type}.
Implicit Types (d kw : list (string * V)) (k : string) (v : V).

Lemma dict_get_set k k' v d :
  dict_get k (dict_set k' v d) = if String.eqb k k' then Some v else dict_get k d.
Proof.
  induction d as [| [k0 v0] d IH]; simpl.
  - reflexivity.
  - destruct (String.eqb k' k0) eqn:E0; simpl.
    + apply String.eqb_eq in E0. subst k0.
      now destruct (String.eqb k k').
    + rewrite IH. destruct (String.eqb k k0) eqn:E1; [| reflexivity].
      apply String.eqb_eq in E1. subst k0.
      now rewrite String.eqb_sym, E0.
Qed.

Lemma dict_get_update k d kw :
  dict_get k (dict_update d kw) =
  match kw_last k kw with
  | Some v => Some v
  | None => dict_get k d
  end.
Proof.
  unfold dict_update. revert d.
  induction kw as [| [k0 v0] kw IH]; intros d; simpl; [reflexivity |].
  rewrite IH. destruct (kw_last k kw); [reflexivity |].
  rewrite dict_get_set. now destruct (String.eqb k k0).
Qed.


Lemma kw_last_keys k d : k ∉ map fst d -> kw_last k d = None.
Proof.
  induction d as [| [k0 v0] d IH]; simpl; [reflexivity |].
  rewrite not_elem_of_cons. intros [Hne Hd]. rewrite (IH Hd).
  apply String.eqb_neq in Hne. now rewrite Hne.
Qed.

(** In a dict, whose keys are distinct, the last binding is the only one. *)
Lemma kw_last_dict k d : NoDup (map fst d) -> kw_last k d = dict_get k d.
Proof.
  induction d as [| [k0 v0] d IH]; simpl; [reflexivity |].
  intros Hnd. apply NoDup_cons in Hnd as [Hk0 Hnd].
  destruct (String.eqb k k0) eqn:E.
  - apply String.eqb_eq in E. subst k0. now rewrite (kw_last_keys _ _ Hk0).
  - rewrite (IH Hnd). now destruct (dict_get k d).
Qed.

Lemma dict_set_keys k v d :
  map fst (dict_set k v d) =
  if existsb (String.eqb k) (map fst d) then map fst d
  else (map fst d ++ [k])%list.
Proof.
  induction d as [| [k0 v0] d IH]; simpl; [reflexivity |].
  destruct (String.eqb k k0) eqn:E; simpl; [reflexivity |].
  rewrite IH. now destruct (existsb (String.eqb k) (map fst d)).
Qed.

Lemma existsb_eqb_elem k (l : list string) :
  existsb (String.eqb k) l = true <-> k ∈ l.
Proof.
  rewrite existsb_exists. split.
  - intros (x & Hin & E). apply String.eqb_eq in E. subst x.
    now apply list_elem_of_In.
  - intros Hin. exists k. split; [now apply list_elem_of_In | apply String.eqb_refl].
Qed.

Lemma dict_set_nodup k v d :
  NoDup (map fst d) -> NoDup (map fst (dict_set k v d)).
Proof.
  intros Hnd. rewrite dict_set_keys.
  destruct (existsb (String.eqb k) (map fst d)) eqn:E; [assumption |].
  apply NoDup_app. split; [assumption |]. split.
  - intros x Hx Hk. apply list_elem_of_singleton in Hk. subst x.
    apply existsb_eqb_elem in Hx. congruence.
  - apply NoDup_singleton.
Qed.
End DictFacts.

End PyFacts.

(** ** Sweep-argument parsing *)

Module SimFacts.
Import Py Sim.

(** A sweep key given an iterable of ints is stored as it is. *)
Lemma parse_loop_accepts (input_args : list string) (key : string)
    (val : pyval) (vs : list pyval) :
  key_in key input_args = true ->
  py_iter val = Ok vs ->
  forallb isinstance_int vs = true ->
  parse_loop input_args [(key, val)] [] = Ok [(key, val)].
Proof.
  intros Hkey Hit Hall. simpl. now rewrite Hkey, Hit; simpl; rewrite Hall.
Qed.

(** An iterable holding something that is not an int is refused with the
    message of the [raise] statement. *)
Lemma parse_loop_rejects (input_args : list string) (key : string)
    (val : pyval) (vs : list pyval) :
  key_in key input_args = true ->
  py_iter val = Ok vs ->
  forallb isinstance_int vs = false ->
  parse_loop input_args [(key, val)] [] =
  Raise (TypeError ("Argument " ++ key ++ " must be an int or iterable of ints")).
Proof.
  intros Hkey Hit Hall. simpl. now rewrite Hkey, Hit; simpl; rewrite Hall.
Qed.

(** A key that is not a sweep parameter of the mode is skipped, whatever
    its value. *)
Lemma parse_loop_no_input_args (kwargs acc : list (string * pyval)) :
  parse_loop [] kwargs acc = Ok acc.
Proof.
  revert acc. induction kwargs as [| [key val] kwargs IH]; intros acc; simpl;
    [reflexivity | apply IH].
Qed.

(** In pool mode the sweep keys are kept and any other keyword is
    dropped without a look at its value. *)
Example parse_arguments_pool_sweep :
  _parse_arguments tt (PyStr "pool")
    [("A", PyList [PyInt 50; PyInt 100]); ("days", PyInt 60);
     ("fee", PyList [PyInt 6000000])]
  = Ok ([("A", PyList [PyInt 50; PyInt 100]); ("fee", PyList [PyInt 6000000])],
        Some init_y_bands_strategy).
Proof. reflexivity. Qed.

Example parse_arguments_float_in_list :
  _parse_arguments tt (PyStr "N") [("N", PyList [PyInt 4; PyFloat 0])]
  = Raise (TypeError "Argument N must be an int or iterable of ints").
Proof. reflexivity. Qed.

(** C8 (the code at the failing input): in every mode, a plain integer
    given for a sweep key of that mode is not stored in
    [variable_params]; iterating over it raises the interpreter's own
    [TypeError], although the docstring of [autosim] and the message of
    the [raise] statement both allow an int. *)
Theorem parse_arguments_plain_int_raises {Metadata : Type} (md : Metadata)
    (sim_mode : pyval) (key : string) (n : Z) (rest : list (string * pyval)) :
  key_in key (select_mode sim_mode).1 = true ->
  _parse_arguments md sim_mode ((key, PyInt n) :: rest) =
  Raise (TypeError "'int' object is not iterable").
Proof.
  intros Hkey. unfold _parse_arguments.
  destruct (select_mode sim_mode) as [input_args strategy].
  simpl in *. now rewrite Hkey.
Qed.

(** C8 (witness): [A=100] in pool mode. *)
Lemma parse_arguments_plain_int_raises_witness :
  _parse_arguments tt (PyStr "pool") [("A", PyInt 100)] =
  Raise (TypeError "'int' object is not iterable").
Proof.
  apply (parse_arguments_plain_int_raises tt (PyStr "pool") "A" 100 []).
  reflexivity.
Defined.

(** C2 (counterexample): with the unrecognized mode [pools], parsing
    returns normally, with no sweep parameter and no strategy, even
    though the value given for [A] is not an iterable of ints. *)
Lemma parse_arguments_unknown_mode_returns :
  _parse_arguments tt (PyStr "pools") [("A", PyFloat 0); ("fee", PyList [PyInt 4])]
  = Ok ([], None).
Proof. reflexivity. Qed.

End SimFacts.

(** ** The simulated price aggregator *)

Module AggregatorFacts.
Import Py Aggregator.

(** C9: on a non-empty series whose first timestamp (and, unless
    [keep_price], first price) converts to an int, [prepare_for_run]
    returns with [last_timestamp] set to the int timestamp of the first
    index entry; [last_price] is [int(first price * 10**18)] when
    [keep_price] is false and is what the base class left otherwise, so
    it is unchanged whenever the base class does not touch it. *)
Theorem prepare_for_run_sets_price_and_timestamp {Timestamp Base : Type}
    (timestamp : Timestamp -> float64)
    (float_mul_int : float64 -> Z -> float64)
    (py_int : float64 -> result Z)
    (super_prepare_for_run :
       state Base -> Prices Timestamp -> bool -> result (state Base))
    (self self1 : state Base) (t0 : Timestamp) (row : list float64)
    (rest : Prices Timestamp) (keep_price : bool) (init_ts v : Z) :
  super_prepare_for_run self ((t0, row) :: rest) keep_price = Ok self1 ->
  py_int (timestamp t0) = Ok init_ts ->
  (keep_price = false ->
   exists p row', row = p :: row' /\ py_int (float_mul_int p (10 ^ 18)) = Ok v) ->
  exists r,
    prepare_for_run timestamp float_mul_int py_int super_prepare_for_run
      self ((t0, row) :: rest) keep_price = Ok r /\
    last_timestamp r = init_ts /\
    last_price r = (if keep_price then last_price self1 else v) /\
    base r = base self1 /\
    (keep_price = true -> last_price self1 = last_price self ->
     last_price r = last_price self).
Proof.
  intros Hsuper Hts Hprice. unfold prepare_for_run. rewrite Hsuper. simpl.
  destruct keep_price; simpl.
  - rewrite Hts. simpl. eexists. split; [reflexivity |]. simpl. auto.
  - destruct (Hprice eq_refl) as (p & row' & -> & Hv). simpl.
    rewrite Hv. simpl. rewrite Hts. simpl.
    eexists. split; [reflexivity |]. simpl.
    repeat split; auto. discriminate.
Qed.

(** C9 (witness): a one-row series, the base class doing nothing. *)
Lemma prepare_for_run_sets_price_and_timestamp_witness :
  exists r,
    prepare_for_run (fun t : Z => t) (fun x k => x * k) (fun x => Ok x)
      (fun s _ _ => Ok s)
      {| last_price := 1; last_timestamp := 0; base := tt |}
      [(1700000000, [2000; 7])] false = Ok r /\
    last_timestamp r = 1700000000 /\
    last_price r = 2000 * 10 ^ 18 /\
    base r = tt /\
    (false = true -> 1 = 1 -> last_price r = 1).
Proof.
  apply (prepare_for_run_sets_price_and_timestamp
           (fun t : Z => t) (fun x k => x * k) (fun x => Ok x)
           (fun s _ _ => Ok s)
           {| last_price := 1; last_timestamp := 0; base := tt |}
           {| last_price := 1; last_timestamp := 0; base := tt |}
           1700000000 [2000; 7] [] false 1700000000 (2000 * 10 ^ 18)).
  - reflexivity.
  - reflexivity.
  - intros _. exists 2000, [7]. split; reflexivity.
Defined.

End AggregatorFacts.

(** ** The state log *)

Module StateLogFacts.
Import Py PyFacts Sim StateLogModel.

(** A single row always makes a table. *)
Lemma DataFrame_singleton (v i : pyval) :
  DataFrame [v] [i] = Ok {| tbl_index := [i]; tbl_data := [v] |}.
Proof. destruct v; reflexivity. Qed.

Lemma DataFrame_ok (data index : list pyval) (t : Table) :
  DataFrame data index = Ok t ->
  t = {| tbl_index := index; tbl_data := data |} /\
  frame_error data = None /\ length data = length index.
Proof.
  unfold DataFrame. destruct (frame_error data); [discriminate |].
  destruct (Nat.eqb (length data) (length index)) eqn:E; [| discriminate].
  intros H. injection H as <-. apply Nat.eqb_eq in E. auto.
Qed.

Lemma DataFrame_frames (data index : list pyval) :
  frame_error data = None -> length data = length index ->
  DataFrame data index = Ok {| tbl_index := index; tbl_data := data |}.
Proof.
  unfold DataFrame. intros -> ->. now rewrite Nat.eqb_refl.
Qed.

Section Facts.
Context {Pool Controller Parameters Metric Frame : Type}.
Variable infer_dtype : list pyval -> pyval -> pyval.
Variable get_pool_parameters : Pool -> pyval.
Variable get_controller_parameters : Controller -> pyval.
Variable get_N_parameters : Parameters -> pyval.
Variable get_pool_state : Pool -> pyval.
Variable get_controller_state : Pool -> Controller -> pyval.
Variable isinstance_PoolMetric : Metric -> bool.
Variable set_pool : Metric -> Pool -> Metric.
Variable compute : Metric -> list (string * Table) -> result (Frame * Frame).
Variable concat : list Frame -> result Frame.

Local Abbreviation StateLog := (@StateLog Pool Controller Metric).
Local Abbreviation new_log :=
  (__init__ get_pool_parameters get_controller_parameters get_N_parameters
            isinstance_PoolMetric set_pool).
Local Abbreviation update := (update get_pool_state get_controller_state).
Local Abbreviation run_updates := (run_updates get_pool_state get_controller_state).
Local Abbreviation get_logs := (get_logs infer_dtype).
Local Abbreviation compute_metrics := (compute_metrics infer_dtype compute concat).
Local Abbreviation df_col_to_list := (df_col_to_list infer_dtype).
Local Abbreviation table_comprehension := (table_comprehension infer_dtype).
Local Abbreviation series := (series infer_dtype).

(** *** Construction *)

Lemma new_log_state_per_run_recognized (pool : Pool) (controller : Controller)
    (metrics : list Metric) (parameters : Parameters) (sim_mode : pyval) :
  recognized_mode sim_mode = true ->
  is_Some (state_per_run (new_log pool controller metrics parameters sim_mode)).
Proof.
  intros H. apply recognized_mode_cases in H as [-> | [-> | ->]];
    simpl; eauto.
Qed.

(** C2 (amended): an unrecognized [sim_mode] is not reported when the
    sweep parameters are parsed: parsing returns normally with no sweep
    parameter and no strategy, and constructing the log succeeds too,
    leaving [state_per_run] unset; for a recognized [sim_mode] the
    construction sets [state_per_run]. *)
Theorem unrecognized_mode_not_reported {Metadata : Type} (md : Metadata)
    (pool : Pool) (controller : Controller) (metrics : list Metric)
    (parameters : Parameters) (sim_mode : pyval)
    (kwargs : list (string * pyval)) :
  if recognized_mode sim_mode then
    is_Some (state_per_run (new_log pool controller metrics parameters sim_mode))
  else
    _parse_arguments md sim_mode kwargs = Ok ([], None) /\
    state_per_run (new_log pool controller metrics parameters sim_mode) = None /\
    state_per_trade (new_log pool controller metrics parameters sim_mode) = [].
Proof.
  destruct (recognized_mode sim_mode) eqn:E.
  - now apply new_log_state_per_run_recognized.
  - apply unrecognized_mode_cases in E as (E1 & E2 & E3).
    unfold _parse_arguments, select_mode. simpl.
    rewrite E1, E2, E3. rewrite SimFacts.parse_loop_no_input_args. auto.
Qed.

(** *** Recording *)

(** C10: with a [sim_mode] outside the three recognized ones, [update]
    raises nothing and leaves the log, hence its record sequence, as it
    was, whatever keyword arguments it is given. *)
Theorem update_unrecognized_mode_is_noop (self : StateLog)
    (kwargs : list (string * pyval)) :
  recognized_mode (sim_mode self) = false ->
  update kwargs self = (Ok tt, self).
Proof.
  intros H. apply unrecognized_mode_cases in H as (E1 & E2 & E3).
  unfold StateLogModel.update, bindM, get_self. rewrite E1, E2.
  unfold ret. now rewrite E3.
Qed.

(** *** Reduction *)

Lemma get_logs_reads_only (self : StateLog) : (get_logs self).2 = self.
Proof.
  unfold StateLogModel.get_logs, bindM, get_self, lift, read_state_per_run, ret.
  destruct (mapM record_time (state_per_trade self)); [| reflexivity].
  destruct (table_comprehension _ _ _ _); [| reflexivity].
  destruct (state_per_run self); [| reflexivity].
  destruct (DataFrame _ _); reflexivity.
Qed.

Lemma get_logs_of_records_only (self other : StateLog) :
  state_per_trade other = state_per_trade self ->
  state_per_run other = state_per_run self ->
  (get_logs other).1 = (get_logs self).1.
Proof.
  intros Ht Hr.
  unfold StateLogModel.get_logs, bindM, get_self, lift, read_state_per_run, ret.
  rewrite Ht, Hr.
  destruct (mapM record_time (state_per_trade self)); [| reflexivity].
  destruct (table_comprehension _ _ _ _); [| reflexivity].
  destruct (state_per_run self); [| reflexivity].
  destruct (DataFrame _ _); reflexivity.
Qed.

Lemma get_logs_eta (self : StateLog) : get_logs self = ((get_logs self).1, self).
Proof.
  rewrite <- (get_logs_reads_only self) at 3. now destruct (get_logs self).
Qed.

Lemma compute_metrics_reads_only (self : StateLog) :
  (compute_metrics self).2 = self.
Proof.
  unfold StateLogModel.compute_metrics, bindM.
  rewrite (get_logs_eta self).
  destruct (get_logs self).1 as [logs | e]; [| reflexivity].
  unfold get_self, lift, ret.
  destruct (mapM _ (metrics self)) as [md | e]; [| reflexivity].
  destruct (transpose md) as [[per_trade summary] | e]; [| reflexivity].
  destruct (dict_getitem "sim_parameters" logs); [| reflexivity].
  destruct (concat per_trade); [| reflexivity].
  destruct (concat summary); [| reflexivity].
  destruct (dict_getitem "state_data" logs); reflexivity.
Qed.

Lemma compute_metrics_of_records_only (self other : StateLog) :
  state_per_trade other = state_per_trade self ->
  state_per_run other = state_per_run self ->
  metrics other = metrics self ->
  (compute_metrics other).1 = (compute_metrics self).1.
Proof.
  intros Ht Hr Hm.
  pose proof (get_logs_of_records_only self other Ht Hr) as Hlogs.
  unfold StateLogModel.compute_metrics, bindM.
  rewrite (get_logs_eta self), (get_logs_eta other), Hlogs.
  destruct (get_logs self).1 as [logs | e]; [| reflexivity].
  unfold get_self, lift, ret. rewrite Hm.
  destruct (mapM _ (metrics self)) as [md | e]; [| reflexivity].
  destruct (transpose md) as [[per_trade summary] | e]; [| reflexivity].
  destruct (dict_getitem "sim_parameters" logs); [| reflexivity].
  destruct (concat per_trade); [| reflexivity].
  destruct (concat summary); [| reflexivity].
  destruct (dict_getitem "state_data" logs); reflexivity.
Qed.

(** C7: [get_logs] and [compute_metrics] leave the log as it was, so a
    second call on the same log returns what the first returned (the
    tables, or the same exception); the outcome of [get_logs] is fixed by
    the record sequence and the run snapshot, that of [compute_metrics]
    by these and the bound metrics. *)
Theorem compute_metrics_idempotent (self : StateLog) :
  let first := compute_metrics self in
  let second := compute_metrics first.2 in
  second = first /\
  first.2 = self /\
  get_logs (get_logs self).2 = get_logs self /\
  forall other : StateLog,
    state_per_trade other = state_per_trade self ->
    state_per_run other = state_per_run self ->
    (get_logs other).1 = (get_logs self).1 /\
    (metrics other = metrics self ->
     (compute_metrics other).1 = (compute_metrics self).1).
Proof.
  simpl. rewrite compute_metrics_reads_only, get_logs_reads_only.
  repeat split; auto using get_logs_of_records_only,
    compute_metrics_of_records_only.
Qed.

(** C1 (amended): on a log built with a recognized [sim_mode] and never
    updated, [get_logs] raises nothing: it returns the mapping that holds
    the one-row [sim_parameters] table and no other table. *)
Theorem get_logs_empty_run_returns (pool : Pool) (controller : Controller)
    (metrics : list Metric) (parameters : Parameters) (sim_mode : pyval) :
  recognized_mode sim_mode = true ->
  exists snapshot,
    state_per_run (new_log pool controller metrics parameters sim_mode)
    = Some snapshot /\
    get_logs (new_log pool controller metrics parameters sim_mode)
    = (Ok [("sim_parameters",
            {| tbl_index := [PyInt 0]; tbl_data := [snapshot] |})],
       new_log pool controller metrics parameters sim_mode).
Proof.
  intros H.
  destruct (new_log_state_per_run_recognized pool controller metrics
              parameters sim_mode H) as [snapshot Hs].
  exists snapshot. split; [assumption |].
  unfold StateLogModel.get_logs, bindM, get_self, lift, read_state_per_run, ret.
  rewrite Hs. simpl. now rewrite DataFrame_singleton.
Qed.

(** *** The tables of a recorded run *)

Lemma mapM_length {A B} (f : A -> result B) (xs : list A) (ys : list B) :
  mapM f xs = Ok ys -> length ys = length xs.
Proof.
  revert ys. induction xs as [| x xs IH]; intros ys; simpl.
  - intros [= <-]. reflexivity.
  - destruct (f x); simpl; [| discriminate].
    destruct (mapM f xs) as [ys' |]; simpl; [| discriminate].
    intros [= <-]. simpl. now rewrite (IH ys' eq_refl).
Qed.


Lemma add_column_elem (cols : list string) (k0 k : string) :
  k ∈ add_column cols k0 <-> k ∈ cols \/ k = k0.
Proof.
  unfold add_column. destruct (existsb (String.eqb k0) cols) eqn:E.
  - apply existsb_eqb_elem in E. split; [auto |]. now intros [? | ->].
  - rewrite elem_of_app, list_elem_of_singleton. tauto.
Qed.

Lemma add_columns_elem (ks cols : list string) (k : string) :
  k ∈ fold_left add_column ks cols <-> k ∈ cols \/ k ∈ ks.
Proof.
  revert cols. induction ks as [| k0 ks IH]; intros cols; simpl.
  - rewrite elem_of_nil. tauto.
  - rewrite IH, add_column_elem, elem_of_cons. tauto.
Qed.

Lemma df_columns_from (records : list (list (string * pyval)))
    (cols : list string) (k : string) :
  k ∈ fold_left (fun cols r => fold_left add_column (map fst r) cols)
        records cols
  <-> k ∈ cols \/ exists r, r ∈ records /\ k ∈ map fst r.
Proof.
  revert cols. induction records as [| r records IH]; intros cols; simpl.
  - split; [auto |]. intros [? | (r & Hr & _)]; [assumption |].
    now apply elem_of_nil in Hr.
  - rewrite IH, add_columns_elem. split.
    + intros [[? | ?] | (r' & Hr' & Hk)]; [auto | right | right].
      * exists r. split; [apply elem_of_cons; auto | assumption].
      * exists r'. split; [apply elem_of_cons; auto | assumption].
    + intros [? | (r' & Hr' & Hk)]; [auto |].
      apply elem_of_cons in Hr' as [-> | Hr']; [auto |].
      right. eauto.
Qed.

(** The columns of the record table are the keys the records carry. *)
Lemma df_columns_elem (records : list (list (string * pyval))) (k : string) :
  k ∈ df_columns records <-> exists r, r ∈ records /\ k ∈ map fst r.
Proof.
  unfold df_columns. rewrite df_columns_from, elem_of_nil. tauto.
Qed.

Lemma df_col_to_list_length (records : list (list (string * pyval)))
    (col : string) :
  length (df_col_to_list records col) = length records.
Proof.
  unfold StateLogModel.df_col_to_list, as_column. now rewrite !length_map.
Qed.

(** Every column that pandas can frame becomes a table over the common
    index [times]. *)
Lemma table_comprehension_ok (records : list (list (string * pyval)))
    (times : list pyval) (cols : list string) (acc : list (string * Table)) :
  length times = length records ->
  Forall (fun col => frame_error (df_col_to_list records col) = None) cols ->
  NoDup (map fst acc) ->
  exists d,
    table_comprehension records times cols acc = Ok d /\
    NoDup (map fst d) /\
    forall k,
      dict_get k d =
      if existsb (String.eqb k) cols then
        Some {| tbl_index := times; tbl_data := df_col_to_list records k |}
      else dict_get k acc.
Proof.
  intros Hlen Hcols. revert acc.
  induction Hcols as [| col cols Hcol _ IH]; intros acc Hnd; simpl.
  - exists acc. auto.
  - rewrite (DataFrame_frames _ times Hcol)
      by (now rewrite df_col_to_list_length). simpl.
    destruct (IH (dict_set col
                    {| tbl_index := times;
                       tbl_data := df_col_to_list records col |} acc))
      as (d & Hd & Hnd' & Hget); [now apply dict_set_nodup |].
    exists d. split; [assumption |]. split; [assumption |].
    intros k. rewrite Hget, dict_get_set.
    destruct (String.eqb k col) eqn:E; simpl; [| reflexivity].
    apply String.eqb_eq in E. subst k.
    now destruct (existsb (String.eqb col) cols).
Qed.

(** A comprehension that returns has framed every column. *)
Lemma table_comprehension_inv (records : list (list (string * pyval)))
    (times : list pyval) (cols : list string) (acc d : list (string * Table)) :
  table_comprehension records times cols acc = Ok d ->
  Forall (fun col => frame_error (df_col_to_list records col) = None) cols.
Proof.
  revert acc. induction cols as [| col cols IH]; intros acc; simpl;
    [constructor |].
  destruct (DataFrame (df_col_to_list records col) times) as [t |] eqn:E;
    simpl; [| discriminate].
  intros H. constructor; [| eapply IH; eassumption].
  now apply DataFrame_ok in E as (_ & E & _).
Qed.

(** What [get_logs] returns once every record yields a timestamp, every
    column can be framed and the run snapshot is set. *)
Lemma get_logs_tables (self : StateLog) (times : list pyval) (snapshot : pyval) :
  state_per_run self = Some snapshot ->
  mapM record_time (state_per_trade self) = Ok times ->
  Forall (fun col =>
            frame_error (df_col_to_list (state_per_trade self) col) = None)
         (df_columns (state_per_trade self)) ->
  exists logs,
    get_logs self = (Ok logs, self) /\
    forall k,
      dict_get k logs =
      if existsb (String.eqb k) (df_columns (state_per_trade self)) then
        Some {| tbl_index := times;
                tbl_data := df_col_to_list (state_per_trade self) k |}
      else if String.eqb k "sim_parameters" then
        Some {| tbl_index := [PyInt 0]; tbl_data := [snapshot] |}
      else None.
Proof.
  intros Hrun Htimes Hcols.
  destruct (table_comprehension_ok (state_per_trade self) times
              (df_columns (state_per_trade self)) [])
    as (tables & Htab & Hnd & Hget);
    [now apply mapM_length in Htimes | exact Hcols | apply NoDup_nil_2 |].
  eexists. split.
  - unfold StateLogModel.get_logs, bindM, get_self, lift, read_state_per_run, ret.
    rewrite Htimes, Htab, Hrun. simpl. rewrite DataFrame_singleton. reflexivity.
  - intros k. rewrite dict_get_update, (kw_last_dict k tables Hnd), Hget.
    destruct (existsb (String.eqb k) (df_columns (state_per_trade self)));
      reflexivity.
Qed.

(** In a recognized mode one [update] appends one record: the extracted
    state under [state_data], then the keyword arguments. *)
Lemma update_recognized (self : StateLog) (kwargs : list (string * pyval)) :
  recognized_mode (sim_mode self) = true ->
  exists state_data,
    update kwargs self =
    (Ok tt,
     {| metrics := metrics self;
        pool := pool self;
        controller := controller self;
        state_per_run := state_per_run self;
        state_per_trade :=
          state_per_trade self ++ [dict_update [("state_data", state_data)] kwargs];
        sim_mode := sim_mode self |}).
Proof.
  intros H. destruct self as [ms p c run trades mode]. simpl in *.
  apply recognized_mode_cases in H as [-> | [-> | ->]];
    eexists; reflexivity.
Qed.

Lemma run_updates_records
    (calls : list (Pool * Controller * list (string * pyval)))
    (self : StateLog) :
  recognized_mode (sim_mode self) = true ->
  sim_mode (run_updates calls self) = sim_mode self /\
  state_per_run (run_updates calls self) = state_per_run self /\
  metrics (run_updates calls self) = metrics self /\
  exists recs,
    state_per_trade (run_updates calls self)
    = (state_per_trade self ++ recs)%list /\
    Forall2 (fun call r =>
               exists state_data,
                 r = dict_update [("state_data", state_data)] call.2)
            calls recs.
Proof.
  revert self. induction calls as [| [[p c] kwargs] calls IH]; intros self H.
  - simpl. repeat split. exists []. split; [now rewrite app_nil_r | constructor].
  - simpl.
    destruct (update_recognized (observe p c self) kwargs H) as [sd ->].
    simpl.
    match goal with
    | |- context [StateLogModel.run_updates _ _ calls ?s] =>
        destruct (IH s H) as (Hm & Hr & Hmet & recs & Ht & Hrecs)
    end.
    rewrite Hm, Hr, Hmet. simpl. repeat split.
    exists (dict_update [("state_data", sd)] kwargs :: recs). split.
    + rewrite Ht. simpl. now rewrite <- app_assoc.
    + constructor; [now exists sd | assumption].
Qed.

Lemma record_time_of_kwargs (state_data : pyval)
    (kwargs : list (string * pyval)) (price_sample ts : pyval) :
  kw_last "price_sample" kwargs = Some price_sample ->
  getattr "timestamp" price_sample = Ok ts ->
  record_time (dict_update [("state_data", state_data)] kwargs) = Ok ts.
Proof.
  intros Hps Hts. unfold record_time, dict_getitem.
  now rewrite dict_get_update, Hps.
Qed.



End Facts.

(** C10 (witness): a log built with the mode [pools]. *)
Lemma update_unrecognized_mode_is_noop_witness :
  let self : StateLog (Pool := unit) (Controller := unit) (Metric := unit) :=
    __init__ (fun _ => PyNone) (fun _ => PyNone) (fun _ : unit => PyNone)
             (fun _ => false) (fun m _ => m) tt tt [] tt (PyStr "pools") in
  update (fun _ => PyNone) (fun _ _ => PyNone)
    [("price_sample", PyObj [("timestamp", PyInt 1)])] self = (Ok tt, self).
Proof.
  intros self.
  apply (update_unrecognized_mode_is_noop (fun _ => PyNone) (fun _ _ => PyNone)).
  reflexivity.
Defined.

(** C1 (counterexample): a pool-mode log that was never updated; its
    [get_logs] returns the parameter table instead of raising. *)
Lemma get_logs_empty_run_no_error :
  (get_logs demo_infer
     (__init__ (Metric := unit)
        (fun _ : unit => PyDict [("A", PyInt 100); ("fee", PyInt 6)])
        (fun _ : unit => PyNone) (fun _ : unit => PyNone)
        (fun _ => false) (fun m _ => m) tt tt [] tt (PyStr "pool"))).1
  = Ok [("sim_parameters",
         {| tbl_index := [PyInt 0];
            tbl_data := [PyDict [("A", PyInt 100); ("fee", PyInt 6)]] |})].
Proof. reflexivity. Qed.

(** C1 (witness): the same log, through the theorem. *)
Lemma get_logs_empty_run_returns_witness :
  exists snapshot,
    state_per_run
      (__init__ (Metric := unit)
         (fun _ : unit => PyDict [("A", PyInt 100); ("fee", PyInt 6)])
         (fun _ : unit => PyNone) (fun _ : unit => PyNone)
         (fun _ => false) (fun m _ => m) tt tt [] tt (PyStr "pool"))
    = Some snapshot /\
    get_logs demo_infer
      (__init__ (Metric := unit)
         (fun _ : unit => PyDict [("A", PyInt 100); ("fee", PyInt 6)])
         (fun _ : unit => PyNone) (fun _ : unit => PyNone)
         (fun _ => false) (fun m _ => m) tt tt [] tt (PyStr "pool"))
    = (Ok [("sim_parameters",
            {| tbl_index := [PyInt 0]; tbl_data := [snapshot] |})],
       __init__ (Metric := unit)
         (fun _ : unit => PyDict [("A", PyInt 100); ("fee", PyInt 6)])
         (fun _ : unit => PyNone) (fun _ : unit => PyNone)
         (fun _ => false) (fun m _ => m) tt tt [] tt (PyStr "pool")).
Proof.
  apply (get_logs_empty_run_returns demo_infer
           (fun _ : unit => PyDict [("A", PyInt 100); ("fee", PyInt 6)])
           (fun _ : unit => PyNone) (fun _ : unit => PyNone)
           (fun _ : unit => false) (fun m _ => m) tt tt [] tt (PyStr "pool")).
  reflexivity.
Defined.

(** The tables of the two-trade run: one per record key, each indexed by
    the two timestamps; the second trade alone carried a volume, which
    comes back as the float [3.0] beside the missing value. *)
Example demo_log_tables :
  (get_logs demo_infer demo_log).1 =
  Ok [("sim_parameters",
       {| tbl_index := [PyInt 0];
          tbl_data := [PyDict [("loan_discount", PyInt 4)]] |});
      ("state_data",
       {| tbl_index := [PyInt 100; PyInt 160];
          tbl_data := [demo_state 2000 5; demo_state 1990 6] |});
      ("price_sample",
       {| tbl_index := [PyInt 100; PyInt 160];
          tbl_data := [PyObj [("timestamp", PyInt 100)];
                       PyObj [("timestamp", PyInt 160)]] |});
      ("volume",
       {| tbl_index := [PyInt 100; PyInt 160];
          tbl_data := [PyNaN; PyFloat 4613937818241073152] |})].
Proof. reflexivity. Qed.

Example demo_log_debt_series :
  match (get_logs demo_infer demo_log).1 with
  | Ok logs => series demo_infer "debt" <$> dict_get "state_data" logs
  | Raise _ => None
  end
  = Some {| tbl_index := [PyInt 100; PyInt 160];
            tbl_data := [PyInt 5; PyInt 6] |}.
Proof. reflexivity. Qed.

(** Without a price sample among the keyword arguments the reduction
    fails on the record's missing key. *)
Example get_logs_without_price_sample :
  (get_logs demo_infer
     (run_updates (Metric := unit) (fun price => PyDict [("price", PyInt price)])
        demo_state [(2000, 5, [("volume", PyInt 3)])]
        (__init__ (fun _ => PyNone) (fun _ => PyNone) (fun _ : unit => PyNone)
           (fun _ => false) (fun m _ => m) 2010 4 [] tt (PyStr "pool")))).1
  = Raise (KeyError "price_sample").
Proof. reflexivity. Qed.

(** On a log that was never updated [compute_metrics] does fail, but on
    the missing [state_data] table (or, without metrics, on the unpacking
    of the empty transposition), after the metrics have run. *)
Example compute_metrics_empty_run :
  (compute_metrics (Frame := unit) demo_infer (fun _ _ => Ok (tt, tt))
     (fun _ => Ok tt)
     (__init__ (fun _ : unit => PyDict [("A", PyInt 100)])
        (fun _ : unit => PyNone) (fun _ : unit => PyNone)
        (fun _ => false) (fun m _ => m) tt tt [tt] tt (PyStr "pool"))).1
  = Raise (KeyError "state_data").
Proof. reflexivity. Qed.

Example compute_metrics_without_metrics :
  (compute_metrics (Frame := unit) demo_infer
     (fun _ : unit => fun _ => Ok (tt, tt))
     (fun _ => Ok tt) demo_log).1
  = Raise (ValueError "not enough values to unpack (expected 2, got 0)").
Proof. reflexivity. Qed.




End StateLogFacts.

(** ** Band initialisation *)

Module BandSeedingFacts.
Import Py BandSeeding.

Lemma list_max_ge_init (x : Z) (xs : list Z) : x <= list_max x xs.
Proof.
  unfold list_max. revert x. induction xs as [| y xs IH]; intros x; simpl;
    [lia | specialize (IH (Z.max x y)); lia].
Qed.

Lemma list_max_upper_bound (x : Z) (xs : list Z) (y : Z) :
  y ∈ x :: xs -> y <= list_max x xs.
Proof.
  unfold list_max. revert x. induction xs as [| z xs IH]; intros x Hy; simpl.
  - apply list_elem_of_singleton in Hy. lia.
  - apply elem_of_cons in Hy as [-> | Hy].
    + pose proof (list_max_ge_init (Z.max x z) xs). unfold list_max in *. lia.
    + apply elem_of_cons in Hy as [-> | Hy].
      * pose proof (list_max_ge_init (Z.max x z) xs). unfold list_max in *. lia.
      * apply IH. apply elem_of_cons. auto.
Qed.

Lemma list_min_le_init (x : Z) (xs : list Z) : list_min x xs <= x.
Proof.
  unfold list_min. revert x. induction xs as [| y xs IH]; intros x; simpl;
    [lia | specialize (IH (Z.min x y)); lia].
Qed.

Lemma list_min_lower_bound (x : Z) (xs : list Z) (y : Z) :
  y ∈ x :: xs -> list_min x xs <= y.
Proof.
  unfold list_min. revert x. induction xs as [| z xs IH]; intros x Hy; simpl.
  - apply list_elem_of_singleton in Hy. lia.
  - apply elem_of_cons in Hy as [-> | Hy].
    + pose proof (list_min_le_init (Z.min x z) xs). unfold list_min in *. lia.
    + apply elem_of_cons in Hy as [-> | Hy].
      * pose proof (list_min_le_init (Z.min x z) xs). unfold list_min in *. lia.
      * apply IH. apply elem_of_cons. auto.
Qed.

Lemma assign_list_lookup (l : list Z) (amount : Z) (bands : gmap Z Z) (i : Z) :
  fold_left (fun acc j => <[j := amount]> acc) l bands !! i =
  if decide (i ∈ l) then Some amount else bands !! i.
Proof.
  revert bands. induction l as [| j l IH]; intros bands; cbn [fold_left].
  - destruct (decide (i ∈ [])) as [H | H];
      [now apply elem_of_nil in H | reflexivity].
  - rewrite IH. destruct (decide (i ∈ l)) as [Hl | Hl].
    + rewrite decide_True; [reflexivity | apply elem_of_cons; auto].
    + destruct (decide (i = j)) as [-> | Hne].
      * rewrite lookup_insert_eq, decide_True;
          [reflexivity | apply elem_of_cons; auto].
      * rewrite lookup_insert_ne by congruence.
        rewrite decide_False; [reflexivity |].
        rewrite elem_of_cons. tauto.
Qed.

Lemma assign_bands_balance (first count amount : Z) (bands : gmap Z Z) (i : Z) :
  first <= i < first + count ->
  balance (assign_bands first count amount bands) i = amount.
Proof.
  intros Hi. unfold balance, assign_bands. rewrite assign_list_lookup.
  rewrite decide_True; [reflexivity | now apply elem_of_seqZ].
Qed.

Section Facts.
Context {Timestamp : Type}.
Variable p_oracle_up : Z -> Z.
Variable p_oracle_down : Z -> Z.
Variable float_mul_int : float64 -> Z -> float64.
Variable py_int : float64 -> result Z.
Variable max_ticks : nat.
Variable place_active_band : pool -> list Z -> Z -> Z.

Local Abbreviation observed := (observed (Timestamp := Timestamp) float_mul_int py_int).
Local Abbreviation find_half_width := (find_half_width p_oracle_up p_oracle_down).
Local Abbreviation init_y_bands_strategy :=
  (init_y_bands_strategy (Timestamp := Timestamp)
     p_oracle_up p_oracle_down float_mul_int py_int max_ticks
     place_active_band).

(** The search only stops on a half-width whose range brackets. *)
Lemma find_half_width_brackets (fuel : nat) (centre n hi lo m : Z) :
  find_half_width fuel centre n hi lo = Some m ->
  n <= m /\ hi <= p_oracle_up (centre - m) /\ p_oracle_down (centre + m) <= lo.
Proof.
  revert n. induction fuel as [| fuel IH]; intros n; simpl; [discriminate |].
  destruct (_ && _) eqn:E.
  - intros [= <-]. apply andb_prop in E as [E1 E2]. lia.
  - intros H. apply IH in H. lia.
Qed.

(** What a successful seeding looks like. *)
Lemma init_y_bands_strategy_seeded (self seeded : pool)
    (prices : Aggregator.Prices Timestamp) (total_y : Z) :
  init_y_bands_strategy self prices total_y = Seeded seeded ->
  exists x xs n,
    observed prices = Ok (x :: xs) /\
    list_min x xs < list_max x xs /\
    0 < total_y /\
    find_half_width max_ticks (active_band self) 0 (list_max x xs) (list_min x xs)
    = Some n /\
    seeded =
    {| min_band := active_band self - n;
       max_band := active_band self + n;
       active_band := place_active_band self (x :: xs) n;
       bands_x := assign_bands (active_band self - n) (2 * n + 1) 0 (bands_x self);
       bands_y :=
         assign_bands (active_band self - n) (2 * n + 1)
           (total_y / (2 * n + 1)) (bands_y self);
       price_last := price_last self |}.
Proof.
  unfold BandSeeding.init_y_bands_strategy.
  destruct (observed prices) as [[| x xs] | e]; try discriminate.
  destruct (_ || _) eqn:E; [discriminate |].
  apply orb_false_elim in E as [E1 E2].
  apply orb_false_elim in E1 as [E1 E3].
  destruct (find_half_width _ _ _ _ _) as [n |] eqn:F; [| discriminate].
  intros [= <-]. exists x, xs, n. repeat split; auto; lia.
Qed.

(** C4: after a successful seeding, [p_oracle_up(min_band)] is at least
    the largest price of the series and [p_oracle_down(max_band)] at most
    the smallest (prices scaled by [10^18]); so every price of the series
    lies between the two. *)
Theorem seeded_range_brackets_prices (self seeded : pool)
    (prices : Aggregator.Prices Timestamp) (total_y : Z) :
  init_y_bands_strategy self prices total_y = Seeded seeded ->
  exists x xs,
    observed prices = Ok (x :: xs) /\
    list_max x xs <= p_oracle_up (min_band seeded) /\
    p_oracle_down (max_band seeded) <= list_min x xs /\
    forall y, y ∈ x :: xs ->
      p_oracle_down (max_band seeded) <= y <= p_oracle_up (min_band seeded).
Proof.
  intros H. apply init_y_bands_strategy_seeded in H
    as (x & xs & n & Hobs & _ & _ & Hfind & ->).
  apply find_half_width_brackets in Hfind as (_ & Hup & Hdown).
  exists x, xs. simpl. repeat split; auto.
  - pose proof (list_min_lower_bound x xs y H). lia.
  - pose proof (list_max_upper_bound x xs y H). lia.
Qed.

(** The seeded bands hold collateral only, in equal shares. *)
Lemma seeded_bands_hold_collateral (self seeded : pool)
    (prices : Aggregator.Prices Timestamp) (total_y : Z) (i : Z) :
  init_y_bands_strategy self prices total_y = Seeded seeded ->
  min_band seeded <= i <= max_band seeded ->
  balance (bands_x seeded) i = 0 /\
  balance (bands_y seeded) i
  = total_y / (max_band seeded - min_band seeded + 1).
Proof.
  intros H. apply init_y_bands_strategy_seeded in H
    as (x & xs & n & _ & _ & _ & _ & ->). simpl. intros Hi.
  rewrite !assign_bands_balance by lia.
  split; [reflexivity | f_equal; lia].
Qed.
End Facts.

(** The sample pool is seeded over the bands [-6 .. 6]. *)
Example demo_seeding :
  exists seeded,
    init_y_bands_strategy demo_p_oracle_up demo_p_oracle_down
      demo_float_mul_int demo_py_int 50 demo_place_active_band
      demo_pool demo_prices (10000 * 10 ^ 18)
    = Seeded seeded /\
    min_band seeded = -6 /\ max_band seeded = 6.
Proof. eexists. split; [vm_compute; reflexivity |]. auto. Qed.

(** A non-positive deposit, an empty series and a flat series are
    refused before anything is written. *)
Example demo_seeding_degenerate :
  init_y_bands_strategy demo_p_oracle_up demo_p_oracle_down
    demo_float_mul_int demo_py_int 50 demo_place_active_band
    demo_pool demo_prices 0
  = Failed DegenerateInputError /\
  init_y_bands_strategy (Timestamp := Z) demo_p_oracle_up demo_p_oracle_down
    demo_float_mul_int demo_py_int 50 demo_place_active_band
    demo_pool [] (10000 * 10 ^ 18)
  = Failed DegenerateInputError /\
  init_y_bands_strategy demo_p_oracle_up demo_p_oracle_down
    demo_float_mul_int demo_py_int 50 demo_place_active_band
    demo_pool [(1700000000, [2900]); (1700000600, [2900])] (10000 * 10 ^ 18)
  = Failed DegenerateInputError.
Proof. repeat split; vm_compute; reflexivity. Qed.

(** C4 (witness): the sample pool and series. *)
Lemma seeded_range_brackets_prices_witness :
  exists seeded x xs,
    init_y_bands_strategy demo_p_oracle_up demo_p_oracle_down
      demo_float_mul_int demo_py_int 50 demo_place_active_band
      demo_pool demo_prices (10000 * 10 ^ 18)
    = Seeded seeded /\
    observed demo_float_mul_int demo_py_int demo_prices = Ok (x :: xs) /\
    list_max x xs <= demo_p_oracle_up (min_band seeded) /\
    demo_p_oracle_down (max_band seeded) <= list_min x xs /\
    forall y, y ∈ x :: xs ->
      demo_p_oracle_down (max_band seeded) <= y
      <= demo_p_oracle_up (min_band seeded).
Proof.
  eexists.
  assert (Hseed :
    init_y_bands_strategy demo_p_oracle_up demo_p_oracle_down
      demo_float_mul_int demo_py_int 50 demo_place_active_band
      demo_pool demo_prices (10000 * 10 ^ 18)
    = Seeded _) by (vm_compute; reflexivity).
  destruct (seeded_range_brackets_prices demo_p_oracle_up demo_p_oracle_down
              demo_float_mul_int demo_py_int 50 demo_place_active_band
              demo_pool _ demo_prices
              (10000 * 10 ^ 18) Hseed) as (x & xs & Hrest).
  exists x, xs. split; [exact Hseed | exact Hrest].
Defined.

End BandSeedingFacts.

(** ** More on sweep-argument parsing and [autosim] *)

Module SimMore.
Import Py PyFacts Sim.

(** The condition under which the loop lets a keyword pass. *)
Local Abbreviation passes input_args :=
  (fun kv : string * pyval =>
     key_in kv.1 input_args = true -> sweep_value_ok kv.2 = true).

Lemma parse_loop_step_ok (input_args : list string) (key : string)
    (val : pyval) (rest acc : list (string * pyval)) :
  key_in key input_args = true ->
  sweep_value_ok val = true ->
  parse_loop input_args ((key, val) :: rest) acc
  = parse_loop input_args rest (dict_set key val acc).
Proof.
  unfold sweep_value_ok. intros Hkey Hok. simpl. rewrite Hkey.
  destruct (py_iter val) as [vs | e]; [| discriminate]. simpl. now rewrite Hok.
Qed.

Lemma parse_loop_step_bad (input_args : list string) (key : string)
    (val : pyval) (rest acc : list (string * pyval)) :
  key_in key input_args = true ->
  sweep_value_ok val = false ->
  parse_loop input_args ((key, val) :: rest) acc
  = Raise (match py_iter val with
           | Raise e => e
           | Ok _ =>
               TypeError
                 ("Argument " ++ key ++ " must be an int or iterable of ints")
           end).
Proof.
  unfold sweep_value_ok. intros Hkey Hbad. simpl. rewrite Hkey.
  destruct (py_iter val) as [vs | e]; [| reflexivity]. simpl. now rewrite Hbad.
Qed.

Lemma parse_loop_skips (input_args : list string)
    (kwargs acc : list (string * pyval)) :
  parse_loop input_args kwargs acc
  = parse_loop input_args (sweep_kwargs input_args kwargs) acc.
Proof.
  revert acc. unfold sweep_kwargs.
  induction kwargs as [| [key val] kwargs IH]; intros acc; [reflexivity |].
  destruct (key_in key input_args) eqn:Hkey.
  - rewrite filter_cons_True by exact Hkey.
    cbn [parse_loop]. rewrite Hkey.
    destruct (py_iter val) as [vs | e]; [| reflexivity]. simpl.
    destruct (forallb isinstance_int vs); [apply IH | reflexivity].
  - rewrite filter_cons_False by (simpl; congruence).
    cbn [parse_loop]. rewrite Hkey. apply IH.
Qed.

Lemma parse_loop_all_pass (input_args : list string)
    (kwargs acc : list (string * pyval)) :
  Forall (passes input_args) kwargs ->
  parse_loop input_args kwargs acc
  = Ok (dict_update acc (sweep_kwargs input_args kwargs)).
Proof.
  intros Hall. revert acc. unfold sweep_kwargs.
  induction Hall as [| [key val] kwargs Hkv _ IH]; intros acc; [reflexivity |].
  destruct (key_in key input_args) eqn:Hkey.
  - rewrite filter_cons_True by exact Hkey.
    rewrite parse_loop_step_ok by auto. rewrite IH. reflexivity.
  - rewrite filter_cons_False by (simpl; congruence).
    cbn [parse_loop]. rewrite Hkey. apply IH.
Qed.

Lemma parse_loop_first_offender (input_args : list string)
    (before after acc : list (string * pyval)) (key : string) (val : pyval) :
  Forall (passes input_args) before ->
  key_in key input_args = true ->
  sweep_value_ok val = false ->
  parse_loop input_args (before ++ (key, val) :: after) acc
  = Raise (match py_iter val with
           | Raise e => e
           | Ok _ =>
               TypeError
                 ("Argument " ++ key ++ " must be an int or iterable of ints")
           end).
Proof.
  intros Hall Hkey Hbad. revert acc.
  induction Hall as [| [k v] before Hkv _ IH]; intros acc.
  - now apply parse_loop_step_bad.
  - rewrite <- app_comm_cons. destruct (key_in k input_args) eqn:Hk.
    + rewrite parse_loop_step_ok by auto. apply IH.
    + cbn [parse_loop]. rewrite Hk. apply IH.
Qed.

(** A list that is not all passing splits at its first offender. *)
Lemma first_offender_split (input_args : list string)
    (kwargs : list (string * pyval)) :
  Forall (passes input_args) kwargs \/
  exists before key val after,
    kwargs = (before ++ (key, val) :: after)%list /\
    Forall (passes input_args) before /\
    key_in key input_args = true /\ sweep_value_ok val = false.
Proof.
  induction kwargs as [| [key val] kwargs IH]; [left; constructor |].
  destruct (key_in key input_args) eqn:Hkey.
  - destruct (sweep_value_ok val) eqn:Hok.
    + destruct IH as [Hall | (before & k & v & after & -> & Hb & Hk & Hv)].
      * left. constructor; [simpl; auto | assumption].
      * right. exists ((key, val) :: before), k, v, after.
        split; [reflexivity |].
        split; [constructor; [simpl; auto | assumption] | auto].
    + right. exists [], key, val, kwargs.
      split; [reflexivity |]. split; [constructor | auto].
  - destruct IH as [Hall | (before & k & v & after & -> & Hb & Hk & Hv)].
    + left. constructor; [simpl; congruence | assumption].
    + right. exists ((key, val) :: before), k, v, after.
      split; [reflexivity |].
      split; [constructor; [simpl; congruence | assumption] | auto].
Qed.

Lemma parse_loop_ok_all_pass (input_args : list string)
    (kwargs acc out : list (string * pyval)) :
  parse_loop input_args kwargs acc = Ok out ->
  Forall (passes input_args) kwargs.
Proof.
  intros Hout.
  destruct (first_offender_split input_args kwargs)
    as [Hall | (before & k & v & after & -> & Hb & Hk & Hv)]; [exact Hall |].
  rewrite (parse_loop_first_offender input_args before after acc k v Hb Hk Hv)
    in Hout.
  discriminate.
Qed.

Lemma dict_update_fresh {V : Type} (acc kw : list (string * V)) :
  NoDup (map fst (acc ++ kw)) -> dict_update acc kw = (acc ++ kw)%list.
Proof.
  unfold dict_update. revert acc.
  induction kw as [| [k v] kw IH]; intros acc Hnd; simpl.
  - now rewrite app_nil_r.
  - assert (Hset : dict_set k v acc = (acc ++ [(k, v)])%list).
    { clear IH. rewrite map_app in Hnd. apply NoDup_app in Hnd as (_ & Hdis & _).
      assert (Hk : k ∉ map fst acc).
      { intros Hin. apply (Hdis k Hin). simpl. apply elem_of_cons. auto. }
      clear Hdis. induction acc as [| [k0 v0] acc IHacc]; simpl; [reflexivity |].
      simpl in Hk. apply not_elem_of_cons in Hk as [Hne Hk].
      apply String.eqb_neq in Hne. rewrite Hne. now rewrite IHacc. }
    rewrite Hset. rewrite IH; rewrite <- app_assoc; [reflexivity | exact Hnd].
Qed.

Lemma sweep_kwargs_nodup (input_args : list string)
    (kwargs : list (string * pyval)) :
  NoDup (map fst kwargs) -> NoDup (map fst (sweep_kwargs input_args kwargs)).
Proof.
  unfold sweep_kwargs. induction kwargs as [| [k v] kwargs IH]; simpl; intros Hnd.
  - constructor.
  - apply NoDup_cons in Hnd as [Hk Hnd].
    destruct (decide (key_in k input_args = true)) as [Hin | Hout].
    + rewrite filter_cons_True by exact Hin. simpl. apply NoDup_cons. split; [| auto].
      intros Hmem. apply Hk. apply list_elem_of_fmap in Hmem as (kv & -> & Hmem).
      apply list_elem_of_filter in Hmem as [_ Hmem].
      apply list_elem_of_fmap. now exists kv.
    + rewrite filter_cons_False by exact Hout. auto.
Qed.

Lemma kw_last_sweep_kwargs (input_args : list string)
    (kwargs : list (string * pyval)) (k : string) :
  kw_last k (sweep_kwargs input_args kwargs)
  = if key_in k input_args then kw_last k kwargs else None.
Proof.
  unfold sweep_kwargs. induction kwargs as [| [k0 v0] kwargs IH]; simpl.
  - now destruct (key_in k input_args).
  - destruct (decide (key_in k0 input_args = true)) as [Hin | Hout].
    + rewrite filter_cons_True by exact Hin. simpl. rewrite IH.
      destruct (key_in k input_args) eqn:Hk; [reflexivity |].
      destruct (String.eqb k k0) eqn:E; [| reflexivity].
      apply String.eqb_eq in E. subst k0. congruence.
    + rewrite filter_cons_False by exact Hout. rewrite IH.
      destruct (key_in k input_args) eqn:Hk; [| reflexivity].
      destruct (kw_last k kwargs); [reflexivity |].
      destruct (String.eqb k k0) eqn:E; [| reflexivity].
      apply String.eqb_eq in E. subst k0. congruence.
Qed.

(** X1: keywords that are not sweep parameters of the mode play no part
    in parsing: the outcome is that of the call with those keywords
    removed, whatever their values. *)
Theorem parse_arguments_ignores_other_keywords {Metadata : Type}
    (md : Metadata) (sim_mode : pyval) (kwargs : list (string * pyval)) :
  _parse_arguments md sim_mode kwargs
  = _parse_arguments md sim_mode
      (sweep_kwargs (select_mode sim_mode).1 kwargs).
Proof.
  unfold _parse_arguments.
  destruct (select_mode sim_mode) as [input_args strategy]. simpl.
  now rewrite parse_loop_skips.
Qed.

(** X2: when the keywords are distinct and every sweep keyword of the
    mode carries an iterable of ints, parsing returns exactly the sweep
    keywords, in call order and with the values given, and the strategy
    of the mode. *)
Theorem parse_arguments_keeps_sweep_keywords {Metadata : Type}
    (md : Metadata) (sim_mode : pyval) (kwargs : list (string * pyval)) :
  NoDup (map fst kwargs) ->
  Forall (passes (select_mode sim_mode).1) kwargs ->
  _parse_arguments md sim_mode kwargs
  = Ok (sweep_kwargs (select_mode sim_mode).1 kwargs, (select_mode sim_mode).2).
Proof.
  intros Hnd Hall. unfold _parse_arguments.
  destruct (select_mode sim_mode) as [input_args strategy]. simpl in *.
  rewrite parse_loop_all_pass by exact Hall. simpl.
  rewrite dict_update_fresh; [reflexivity |].
  now apply sweep_kwargs_nodup.
Qed.

(** X2 (witness): a pool-mode call with two sweeps and a stray keyword. *)
Lemma parse_arguments_keeps_sweep_keywords_witness :
  _parse_arguments tt (PyStr "pool")
    [("A", PyList [PyInt 50; PyInt 100]); ("days", PyInt 60);
     ("fee", PyList [PyInt 6000000])]
  = Ok (sweep_kwargs (select_mode (PyStr "pool")).1
          [("A", PyList [PyInt 50; PyInt 100]); ("days", PyInt 60);
           ("fee", PyList [PyInt 6000000])],
        (select_mode (PyStr "pool")).2).
Proof.
  apply (parse_arguments_keeps_sweep_keywords tt (PyStr "pool")).
  - repeat (apply NoDup_cons; split;
            [rewrite ?elem_of_cons, elem_of_nil; intros H;
             repeat destruct H as [H | H]; try discriminate; exact H |]).
    apply NoDup_nil_2.
  - repeat constructor; simpl; intros H; try reflexivity; discriminate.
Defined.

(** X3: parsing returns normally exactly when every keyword that is a
    sweep parameter of the mode carries a value that can be iterated and
    yields ints only. *)
Theorem parse_arguments_returns_iff {Metadata : Type}
    (md : Metadata) (sim_mode : pyval) (kwargs : list (string * pyval)) :
  (exists out, _parse_arguments md sim_mode kwargs = Ok out) <->
  Forall (passes (select_mode sim_mode).1) kwargs.
Proof.
  unfold _parse_arguments.
  destruct (select_mode sim_mode) as [input_args strategy]. simpl. split.
  - intros [out Hout].
    destruct (parse_loop input_args kwargs []) as [vp | e] eqn:Hp;
      [| discriminate].
    now apply parse_loop_ok_all_pass in Hp.
  - intros Hall. rewrite parse_loop_all_pass by exact Hall. simpl. eauto.
Qed.

(** X4: when parsing fails, the exception is that of the first offending
    sweep keyword in call order: the interpreter's own [TypeError] if its
    value cannot be iterated, the [TypeError] of the [raise] statement,
    naming the keyword, if it yields something that is not an int. *)
Theorem parse_arguments_first_offender {Metadata : Type}
    (md : Metadata) (sim_mode : pyval)
    (before after : list (string * pyval)) (key : string) (val : pyval) :
  Forall (passes (select_mode sim_mode).1) before ->
  key_in key (select_mode sim_mode).1 = true ->
  sweep_value_ok val = false ->
  _parse_arguments md sim_mode (before ++ (key, val) :: after)
  = Raise (match py_iter val with
           | Raise e => e
           | Ok _ =>
               TypeError
                 ("Argument " ++ key ++ " must be an int or iterable of ints")
           end).
Proof.
  intros Hall Hkey Hbad. unfold _parse_arguments.
  destruct (select_mode sim_mode) as [input_args strategy]. simpl in *.
  now rewrite parse_loop_first_offender.
Qed.

(** X4 (witness): the second sweep of a controller-mode call holds a
    float; the later, equally bad keyword is not reached. *)
Lemma parse_arguments_first_offender_witness :
  _parse_arguments tt (PyStr "controller")
    ([("loan_discount", PyList [PyInt 9]); ("days", PyFloat 0)] ++
     ("liquidation_discount", PyList [PyInt 6; PyFloat 0]) ::
     [("loan_discount", PyNone)])
  = Raise (TypeError
             "Argument liquidation_discount must be an int or iterable of ints").
Proof.
  apply (parse_arguments_first_offender tt (PyStr "controller")
           [("loan_discount", PyList [PyInt 9]); ("days", PyFloat 0)]
           [("loan_discount", PyNone)]
           "liquidation_discount" (PyList [PyInt 6; PyFloat 0])).
  - repeat constructor; simpl; intros H; try reflexivity; discriminate.
  - reflexivity.
  - reflexivity.
Defined.

Section AutosimFacts.
Context {Metadata Results : Type}.
Variable get_metadata : pyval -> pyval -> result Metadata.
Variable pipeline :
  Metadata -> pyval -> list (string * pyval) -> option bands_strategy_fn ->
  result Results.
Variable truthy : Metadata -> bool.

Local Abbreviation autosim := (autosim get_metadata pipeline truthy).
Local Abbreviation metadata_truthy := (metadata_truthy truthy).

(** X5: [autosim] stops on its [assert] exactly when [pool] and
    [pool_metadata] are both falsy ([pool_metadata] being [None] or a
    falsy object); the keyword arguments and the mode are not looked at
    before. *)
Theorem autosim_asserts_pool_or_metadata (pool : pyval)
    (pool_metadata : option Metadata) (sim_mode save_dir : pyval)
    (kwargs : list (string * pyval)) :
  (exists msg,
      autosim pool pool_metadata sim_mode save_dir kwargs = AssertionFailed msg)
  <-> py_truthy pool = false /\ metadata_truthy pool_metadata = false.
Proof.
  unfold Sim.autosim. simpl. split.
  - intros [msg H]. destruct (py_truthy pool); simpl in H.
    + destruct (bind _ _); discriminate.
    + destruct (Sim.metadata_truthy truthy pool_metadata); [| auto].
      simpl in H. destruct (bind _ _); discriminate.
  - intros [-> ->]. simpl. eauto.
Qed.

(** X6: when [autosim] returns results, the metadata were the ones
    given, if truthy, and otherwise the ones fetched for a truthy
    [pool]; every sweep keyword of the mode carried an iterable of ints;
    and the results are those of the pipeline run on the metadata, the
    mode, the checked sweep keywords and the strategy of the mode. *)
Theorem autosim_returns_pipeline_results (pool : pyval)
    (pool_metadata : option Metadata) (sim_mode save_dir : pyval)
    (kwargs : list (string * pyval)) (results : Results) :
  autosim pool pool_metadata sim_mode save_dir kwargs = Returned results ->
  exists md,
    ((pool_metadata = Some md /\ truthy md = true) \/
     (metadata_truthy pool_metadata = false /\ py_truthy pool = true /\
      get_metadata pool save_dir = Ok md)) /\
    Forall (passes (select_mode sim_mode).1) kwargs /\
    pipeline md sim_mode
      (dict_update [] (sweep_kwargs (select_mode sim_mode).1 kwargs))
      (select_mode sim_mode).2
    = Ok results.
Proof.
  unfold Sim.autosim. simpl. intros H.
  assert (Hmd : exists md,
             ((pool_metadata = Some md /\ truthy md = true) \/
              (metadata_truthy pool_metadata = false /\
               py_truthy pool = true /\
               get_metadata pool save_dir = Ok md)) /\
             bind (_parse_arguments md sim_mode kwargs)
               (fun '(p_var, bands_strategy) =>
                  pipeline md sim_mode p_var bands_strategy) = Ok results).
  { destruct (Sim.metadata_truthy truthy pool_metadata) eqn:Hm.
    - destruct pool_metadata as [md |]; [| discriminate]. simpl in Hm.
      exists md. split; [auto |]. rewrite orb_true_r in H. simpl in H.
      rewrite Hm in H. simpl in H.
      destruct (bind _ _); [congruence | discriminate].
    - destruct (py_truthy pool); simpl in H; [| discriminate].
      assert (Hf : metadata_or_fetch get_metadata truthy pool pool_metadata
                     save_dir = get_metadata pool save_dir).
      { destruct pool_metadata as [md |]; simpl in *; [now rewrite Hm | auto]. }
      rewrite Hf in H.
      destruct (get_metadata pool save_dir) as [md | e]; simpl in H;
        [| discriminate].
      exists md. split; [auto |].
      destruct (bind _ _); [congruence | discriminate]. }
  destruct Hmd as (md & Hsrc & Hrun). exists md. split; [exact Hsrc |].
  unfold _parse_arguments in Hrun.
  destruct (select_mode sim_mode) as [input_args strat]. simpl in *.
  destruct (parse_loop input_args kwargs []) as [vp | e] eqn:Hp;
    [| discriminate].
  pose proof (parse_loop_ok_all_pass _ _ _ _ Hp) as Hall.
  split; [exact Hall |].
  rewrite parse_loop_all_pass in Hp by exact Hall.
  injection Hp as <-. exact Hrun.
Qed.

(** X7: with a mode that is none of the three and truthy metadata given,
    [autosim] raises nothing of its own: whatever the keyword arguments,
    the pipeline is run with no sweep parameter and no band strategy,
    and its outcome is the outcome of the call. *)
Theorem autosim_unrecognized_mode_runs_pipeline (pool : pyval)
    (md : Metadata) (sim_mode save_dir : pyval)
    (kwargs : list (string * pyval)) :
  recognized_mode sim_mode = false ->
  truthy md = true ->
  autosim pool (Some md) sim_mode save_dir kwargs
  = match pipeline md sim_mode [] None with
    | Ok results => Returned results
    | Raise e => Raised e
    end.
Proof.
  intros H Hmd. apply unrecognized_mode_cases in H as (E1 & E2 & E3).
  unfold Sim.autosim, _parse_arguments, select_mode, metadata_or_fetch.
  rewrite E1, E2, E3. simpl. rewrite Hmd, orb_true_r. simpl.
  now rewrite SimFacts.parse_loop_no_input_args.
Qed.
End AutosimFacts.

(** X5 (example): empty metadata count as none; without a pool the call
    stops on the [assert], with one the metadata are fetched. *)
Example autosim_empty_metadata :
  autosim (Results := nat)
    (fun pool _ => match pool with
                   | PyStr s => Ok [(s, PyInt 1)]
                   | _ => Raise (KeyError "pool")
                   end)
    (fun md _ _ _ => Ok (length md))
    (fun md => negb (Nat.eqb (length md) 0))
    PyNone (Some []) (PyStr "pool") PyNone []
  = AssertionFailed "Must input 'pool' or 'pool_metadata'" /\
  autosim (Results := nat)
    (fun pool _ => match pool with
                   | PyStr s => Ok [(s, PyInt 1)]
                   | _ => Raise (KeyError "pool")
                   end)
    (fun md _ _ _ => Ok (length md))
    (fun md => negb (Nat.eqb (length md) 0))
    (PyStr "wstETH") (Some []) (PyStr "pool") PyNone []
  = Returned 1%nat.
Proof. split; reflexivity. Qed.

(** X6 (witness): metadata fetched for the pool [wstETH]; the pipeline
    answers with the number of sweeps it was given. *)
Lemma autosim_returns_pipeline_results_witness :
  exists md : string,
    ((@None string = Some md /\ true = true) \/
     (false = false /\ py_truthy (PyStr "wstETH") = true /\
      Ok "wstETH" = Ok md)) /\
    Forall (passes (select_mode (PyStr "pool")).1)
      [("A", PyList [PyInt 50; PyInt 100]); ("days", PyInt 60)] /\
    Ok (length
          (dict_update []
             (sweep_kwargs (select_mode (PyStr "pool")).1
                [("A", PyList [PyInt 50; PyInt 100]); ("days", PyInt 60)])))
    = Ok 1%nat.
Proof.
  apply (autosim_returns_pipeline_results
           (fun pool _ => match pool with
                          | PyStr s => Ok s
                          | _ => Raise (KeyError "pool")
                          end)
           (fun _ _ p_var _ => Ok (length p_var))
           (fun _ => true)
           (PyStr "wstETH") None (PyStr "pool") PyNone
           [("A", PyList [PyInt 50; PyInt 100]); ("days", PyInt 60)] 1%nat).
  reflexivity.
Defined.

(** X7 (witness): the mode [pools] and a keyword that pool mode would
    have refused. *)
Lemma autosim_unrecognized_mode_runs_pipeline_witness :
  autosim (Metadata := unit) (fun _ _ => Raise (KeyError "pool"))
    (fun _ _ p_var strategy => Ok (p_var, strategy))
    (fun _ => true)
    PyNone (Some tt) (PyStr "pools") PyNone [("A", PyInt 100)]
  = Returned ([], None).
Proof.
  apply (autosim_unrecognized_mode_runs_pipeline
           (fun _ _ => Raise (KeyError "pool"))
           (fun _ _ p_var strategy => Ok (p_var, strategy))
           (fun _ => true)
           PyNone tt (PyStr "pools") PyNone [("A", PyInt 100)]).
  - reflexivity.
  - reflexivity.
Defined.

End SimMore.

(** ** More on the state log *)

Module StateLogMore.
Import Py PyFacts StateLogModel StateLogFacts.

Lemma mapM_app {A B} (f : A -> result B) (xs xs' : list A) (ys ys' : list B) :
  mapM f xs = Ok ys -> mapM f xs' = Ok ys' ->
  mapM f (xs ++ xs') = Ok (ys ++ ys')%list.
Proof.
  revert ys. induction xs as [| x xs IH]; intros ys; simpl.
  - intros [= <-]. auto.
  - destruct (f x) as [y |]; simpl; [| discriminate].
    destruct (mapM f xs) as [ys0 |]; simpl; [| discriminate].
    intros [= <-] H'. now rewrite (IH ys0 eq_refl H').
Qed.

(** The exception of the first element on which [f] fails is the one the
    comprehension raises. *)
Lemma mapM_first_failure {A B} (f : A -> result B) (xs : list A) (x : A) :
  x ∈ xs -> (exists e, f x = Raise e) ->
  exists x' e, x' ∈ xs /\ f x' = Raise e /\ mapM f xs = Raise e.
Proof.
  induction xs as [| x0 xs IH]; intros Hin Hfail.
  - now apply elem_of_nil in Hin.
  - simpl. destruct (f x0) as [y |] eqn:E0.
    + apply elem_of_cons in Hin as [-> | Hin];
        [destruct Hfail as [e He]; congruence |].
      destruct (IH Hin Hfail) as (x' & e & Hx' & He & Hm).
      exists x', e. rewrite Hm. simpl.
      split; [apply elem_of_cons; auto | auto].
    + exists x0, e. simpl. split; [apply elem_of_cons; auto | auto].
Qed.

Lemma record_time_errors (state : list (string * pyval)) (e : pyerr) :
  record_time state = Raise e ->
  e = KeyError "price_sample" \/ e = AttributeError "timestamp".
Proof.
  unfold record_time, dict_getitem.
  destruct (dict_get "price_sample" state) as [ps |]; simpl.
  - unfold getattr. destruct ps; try (intros [= <-]; auto).
    destruct (dict_get "timestamp" attrs); [discriminate | intros [= <-]; auto].
  - intros [= <-]. auto.
Qed.

Section Facts.
Context {Pool Controller Parameters Metric Frame : Type}.
Variable infer_dtype : list pyval -> pyval -> pyval.
Variable get_pool_parameters : Pool -> pyval.
Variable get_controller_parameters : Controller -> pyval.
Variable get_N_parameters : Parameters -> pyval.
Variable get_pool_state : Pool -> pyval.
Variable get_controller_state : Pool -> Controller -> pyval.
Variable isinstance_PoolMetric : Metric -> bool.
Variable set_pool : Metric -> Pool -> Metric.
Variable compute : Metric -> list (string * Table) -> result (Frame * Frame).
Variable concat : list Frame -> result Frame.

Local Abbreviation StateLog := (@StateLog Pool Controller Metric).
Local Abbreviation new_log :=
  (__init__ get_pool_parameters get_controller_parameters get_N_parameters
            isinstance_PoolMetric set_pool).
Local Abbreviation update := (update get_pool_state get_controller_state).
Local Abbreviation run_updates := (run_updates get_pool_state get_controller_state).
Local Abbreviation get_logs := (get_logs infer_dtype).
Local Abbreviation compute_metrics := (compute_metrics infer_dtype compute concat).
Local Abbreviation df_col_to_list := (df_col_to_list infer_dtype).
Local Abbreviation table_comprehension := (table_comprehension infer_dtype).
Local Abbreviation series := (series infer_dtype).

(** The record one [update] writes in a recognized mode. *)
Local Abbreviation record_of self kwargs :=
  (dict_update
     [("state_data",
       if eq_str (sim_mode self) "pool" then get_pool_state (pool self)
       else get_controller_state (pool self) (controller self))]
     kwargs).

Lemma update_closed_form (self : StateLog) (kwargs : list (string * pyval)) :
  update kwargs self =
  (Ok tt,
   {| metrics := metrics self;
      pool := pool self;
      controller := controller self;
      state_per_run := state_per_run self;
      state_per_trade :=
        state_per_trade self ++
        (if recognized_mode (sim_mode self) then [record_of self kwargs] else []);
      sim_mode := sim_mode self |}).
Proof.
  destruct self as [ms p c run trades mode]. simpl.
  destruct (recognized_mode mode) eqn:E.
  - apply recognized_mode_cases in E as [-> | [-> | ->]]; reflexivity.
  - rewrite app_nil_r. apply unrecognized_mode_cases in E as (E1 & E2 & E3).
    unfold StateLogModel.update, bindM, get_self. simpl. rewrite E1, E2.
    unfold ret. simpl. now rewrite E3.
Qed.
Lemma run_updates_unrecognized
    (calls : list (Pool * Controller * list (string * pyval)))
    (self : StateLog) :
  recognized_mode (sim_mode self) = false ->
  state_per_trade (run_updates calls self) = state_per_trade self /\
  state_per_run (run_updates calls self) = state_per_run self /\
  metrics (run_updates calls self) = metrics self /\
  sim_mode (run_updates calls self) = sim_mode self.
Proof.
  revert self. induction calls as [| [[p c] kwargs] calls IH]; intros self H;
    [auto |].
  simpl. rewrite update_closed_form. simpl. rewrite H.
  match goal with
  | |- context [StateLogModel.run_updates _ _ calls ?s] =>
      destruct (IH s H) as (Ht & Hr & Hm & Hs)
  end.
  rewrite Ht, Hr, Hm, Hs. simpl. now rewrite app_nil_r.
Qed.

(** What a successful [get_logs] tells about the log and its result. *)
Lemma get_logs_ok_inv (self : StateLog) (logs : list (string * Table)) :
  (get_logs self).1 = Ok logs ->
  exists times snapshot,
    mapM record_time (state_per_trade self) = Ok times /\
    state_per_run self = Some snapshot /\
    Forall (fun col =>
              frame_error (df_col_to_list (state_per_trade self) col) = None)
           (df_columns (state_per_trade self)) /\
    forall k,
      dict_get k logs =
      if existsb (String.eqb k) (df_columns (state_per_trade self)) then
        Some {| tbl_index := times;
                tbl_data := df_col_to_list (state_per_trade self) k |}
      else if String.eqb k "sim_parameters" then
        Some {| tbl_index := [PyInt 0]; tbl_data := [snapshot] |}
      else None.
Proof.
  intros H.
  destruct (mapM record_time (state_per_trade self)) as [times | e] eqn:Ht.
  - destruct (table_comprehension (state_per_trade self) times
                (df_columns (state_per_trade self)) []) as [tables | e] eqn:Htab.
    + pose proof (table_comprehension_inv _ _ _ _ _ _ Htab) as Hcols.
      destruct (state_per_run self) as [snapshot |] eqn:Hr.
      * destruct (get_logs_tables infer_dtype self times snapshot Hr Ht Hcols)
          as (logs' & Hl & Hget).
        rewrite Hl in H. injection H as <-.
        exists times, snapshot. auto.
      * exfalso. revert H.
        unfold StateLogModel.get_logs, bindM, get_self, lift,
          read_state_per_run, ret.
        rewrite Ht, Htab, Hr. discriminate.
    + exfalso. revert H.
      unfold StateLogModel.get_logs, bindM, get_self, lift. rewrite Ht, Htab.
      discriminate.
  - exfalso. revert H. unfold StateLogModel.get_logs, bindM, get_self, lift. rewrite Ht.
    discriminate.
Qed.

Lemma mapM_app_inv {A B} (f : A -> result B) (xs xs' : list A) (zs : list B) :
  mapM f (xs ++ xs') = Ok zs ->
  exists ys ys',
    zs = (ys ++ ys')%list /\ mapM f xs = Ok ys /\ mapM f xs' = Ok ys'.
Proof.
  revert zs. induction xs as [| x xs IH]; intros zs; simpl.
  - intros H. exists [], zs. auto.
  - destruct (f x) as [y |]; simpl; [| discriminate].
    destruct (mapM f (xs ++ xs')) as [zs0 |] eqn:E; simpl; [| discriminate].
    intros H. injection H as <-.
    destruct (IH zs0 eq_refl) as (ys & ys' & -> & -> & Hys').
    exists (y :: ys), ys'. auto.
Qed.

Lemma column_present (records : list (list (string * pyval))) (k : string) :
  existsb (String.eqb k) (df_columns records) = true <->
  exists r, r ∈ records /\ k ∈ map fst r.
Proof. now rewrite existsb_eqb_elem, df_columns_elem. Qed.

Lemma column_absent (records : list (list (string * pyval))) (k : string) :
  existsb (String.eqb k) (df_columns records) = false <->
  forall r, r ∈ records -> k ∉ map fst r.
Proof.
  rewrite <- not_true_iff_false, column_present. split.
  - intros H r Hr Hk. apply H. eauto.
  - intros H (r & Hr & Hk). exact (H r Hr Hk).
Qed.

(** *** Recording *)

(** X8: [update] never raises and never touches a slot other than the
    record sequence; to that it appends exactly one record in a
    recognized mode (one also in mode [N], whose test is a separate
    [if]) and nothing otherwise. *)
Theorem update_appends_one_record (self : StateLog)
    (kwargs : list (string * pyval)) :
  let after := (update kwargs self).2 in
  (update kwargs self).1 = Ok tt /\
  state_per_trade after
  = (state_per_trade self ++
     (if recognized_mode (sim_mode self) then [record_of self kwargs] else []))%list /\
  metrics after = metrics self /\
  pool after = pool self /\
  controller after = controller self /\
  state_per_run after = state_per_run self /\
  sim_mode after = sim_mode self.
Proof. rewrite update_closed_form. simpl. repeat split. Qed.

(** X9: in a recognized mode the record appended by [update] binds every
    keyword to the caller's value and [state_data] to the extracted
    state (the pool state in pool mode, the controller state in the two
    other modes), unless the caller passes a keyword named [state_data],
    which then replaces the extracted state. *)
Theorem update_keywords_override (self : StateLog)
    (kwargs : list (string * pyval)) :
  recognized_mode (sim_mode self) = true ->
  exists record,
    state_per_trade (update kwargs self).2
    = (state_per_trade self ++ [record])%list /\
    forall k,
      dict_get k record =
      match kw_last k kwargs with
      | Some v => Some v
      | None =>
          if String.eqb k "state_data" then
            Some (if eq_str (sim_mode self) "pool" then get_pool_state (pool self)
                  else get_controller_state (pool self) (controller self))
          else None
      end.
Proof.
  intros H. rewrite update_closed_form. simpl. rewrite H.
  eexists. split; [reflexivity |]. intros k. now rewrite dict_get_update.
Qed.

(** X10: over a whole run the record sequence only grows at its end: the
    records present before are kept, in place and unchanged, one record
    is added per [update] in a recognized mode and none otherwise, and
    the run snapshot, the metrics and the mode stay as they were. *)
Theorem run_updates_appends_only
    (calls : list (Pool * Controller * list (string * pyval)))
    (self : StateLog) :
  exists recs,
    state_per_trade (run_updates calls self)
    = (state_per_trade self ++ recs)%list /\
    length recs
    = (if recognized_mode (sim_mode self) then length calls else 0%nat) /\
    state_per_run (run_updates calls self) = state_per_run self /\
    metrics (run_updates calls self) = metrics self /\
    sim_mode (run_updates calls self) = sim_mode self.
Proof.
  destruct (recognized_mode (sim_mode self)) eqn:E.
  - destruct (run_updates_records get_pool_state get_controller_state
                calls self E) as (Hs & Hr & Hm & recs & Ht & Hshape).
    exists recs. repeat split; auto.
    symmetry. eapply Forall2_length. eassumption.
  - destruct (run_updates_unrecognized calls self E) as (Ht & Hr & Hm & Hs).
    exists []. rewrite app_nil_r. auto.
Qed.

(** *** Reduction *)

(** X11: [get_logs] returns normally only if every record carries a
    [price_sample] with a [timestamp] attribute, pandas can frame every
    column of the records and the run snapshot was set at construction;
    and it does return under these conditions when the timestamps are
    scalars. *)
Theorem get_logs_returns_when (self : StateLog) :
  ((exists logs, (get_logs self).1 = Ok logs) ->
   (exists times, mapM record_time (state_per_trade self) = Ok times) /\
   Forall (fun col =>
             frame_error (df_col_to_list (state_per_trade self) col) = None)
          (df_columns (state_per_trade self)) /\
   is_Some (state_per_run self)) /\
  (forall times,
      mapM record_time (state_per_trade self) = Ok times ->
      Forall (fun ts => list_like ts = false) times ->
      Forall (fun col =>
                frame_error (df_col_to_list (state_per_trade self) col) = None)
             (df_columns (state_per_trade self)) ->
      is_Some (state_per_run self) ->
      exists logs, (get_logs self).1 = Ok logs).
Proof.
  split.
  - intros [logs H]. apply get_logs_ok_inv in H
      as (times & snapshot & Ht & Hr & Hcols & _). eauto.
  - intros times Ht _ Hcols [snapshot Hr].
    destruct (get_logs_tables infer_dtype self times snapshot Hr Ht Hcols)
      as (logs & Hl & _).
    exists logs. now rewrite Hl.
Qed.

(** X12: one record without a [price_sample], or whose price sample has
    no [timestamp], makes [get_logs] raise, a [KeyError] for
    [price_sample] or an [AttributeError] for [timestamp], whatever the
    other records hold; the log itself is left as it was. *)
Theorem get_logs_missing_sample_raises (self : StateLog)
    (record : list (string * pyval)) :
  record ∈ state_per_trade self ->
  (exists e, record_time record = Raise e) ->
  exists e,
    get_logs self = (Raise e, self) /\
    (e = KeyError "price_sample" \/ e = AttributeError "timestamp").
Proof.
  intros Hin Hfail.
  destruct (mapM_first_failure record_time _ record Hin Hfail)
    as (r' & e & _ & He & Hm).
  exists e. split; [| now apply (record_time_errors r')].
  unfold StateLogModel.get_logs, bindM, get_self, lift. now rewrite Hm.
Qed.

(** X13: a log built with a mode that is none of the three can never be
    reduced: after any run of updates [get_logs] raises the
    [AttributeError] of the unset [state_per_run] slot. *)
Theorem get_logs_unrecognized_mode_raises (pool : Pool)
    (controller : Controller) (metrics : list Metric)
    (parameters : Parameters) (sim_mode : pyval)
    (calls : list (Pool * Controller * list (string * pyval))) :
  recognized_mode sim_mode = false ->
  let self :=
    run_updates calls (new_log pool controller metrics parameters sim_mode) in
  get_logs self = (Raise (AttributeError "state_per_run"), self).
Proof.
  intros H self.
  destruct (run_updates_unrecognized calls
              (new_log pool controller metrics parameters sim_mode) H)
    as (Ht & Hr & _ & _).
  fold self in Ht, Hr. simpl in Ht, Hr.
  apply unrecognized_mode_cases in H as (E1 & E2 & E3).
  rewrite E1, E2, E3 in Hr.
  unfold StateLogModel.get_logs, bindM, get_self, lift, read_state_per_run.
  now rewrite Ht, Hr.
Qed.

(** X14: the mapping [get_logs] returns holds one table per key found in
    any record, over the common index of the records' (scalar)
    timestamps and with the cells in the dtype pandas gave the column,
    and nothing else but the run parameters under [sim_parameters]; a
    record key named [sim_parameters] takes that place, so that the run
    parameters are then not returned at all. *)
Theorem get_logs_keys (self : StateLog) (logs : list (string * Table))
    (times : list pyval) :
  (get_logs self).1 = Ok logs ->
  mapM record_time (state_per_trade self) = Ok times ->
  Forall (fun ts => list_like ts = false) times ->
  exists snapshot,
    state_per_run self = Some snapshot /\
    (forall k,
        (exists r, r ∈ state_per_trade self /\ k ∈ map fst r) ->
        dict_get k logs
        = Some {| tbl_index := times;
                  tbl_data := df_col_to_list (state_per_trade self) k |}) /\
    ((forall r, r ∈ state_per_trade self -> "sim_parameters" ∉ map fst r) ->
     dict_get "sim_parameters" logs
     = Some {| tbl_index := [PyInt 0]; tbl_data := [snapshot] |}) /\
    (forall k,
        k <> "sim_parameters" ->
        (forall r, r ∈ state_per_trade self -> k ∉ map fst r) ->
        dict_get k logs = None).
Proof.
  intros H Htimes _.
  apply get_logs_ok_inv in H as (times' & snapshot & Ht & Hr & _ & Hget).
  assert (times' = times) as -> by congruence.
  exists snapshot. repeat split; auto.
  - intros k Hk. apply column_present in Hk. now rewrite Hget, Hk.
  - intros Hno. apply column_absent in Hno. now rewrite Hget, Hno.
  - intros k Hne Hno. apply column_absent in Hno. rewrite Hget, Hno.
    apply String.eqb_neq in Hne. now rewrite Hne.
Qed.

Lemma records_times
    (calls : list (Pool * Controller * list (string * pyval)))
    (recs : list (list (string * pyval))) (timestamps : list pyval) :
  Forall2 (fun call r =>
             exists state_data,
               r = dict_update [("state_data", state_data)] call.2)
          calls recs ->
  Forall2 (fun call ts =>
             exists price_sample,
               kw_last "price_sample" call.2 = Some price_sample /\
               getattr "timestamp" price_sample = Ok ts)
          calls timestamps ->
  mapM record_time recs = Ok timestamps.
Proof.
  intros Hshape. revert timestamps.
  induction Hshape as [| call r calls recs [sd ->] _ IH];
    intros timestamps Hts; inversion Hts as [| ? ts ? tss (ps & Hps & Ht) Hrest];
    subst; simpl; [reflexivity |].
  rewrite (record_time_of_kwargs sd _ ps ts Hps Ht). simpl.
  now rewrite (IH tss Hrest).
Qed.

(** X15: on a log without records, or without metrics, [compute_metrics]
    never returns: whatever the metrics and [concat] do, the call ends
    in an exception, and the log is left as it was. *)
Theorem compute_metrics_needs_records_and_metrics (self : StateLog) :
  state_per_trade self = [] \/ metrics self = [] ->
  exists e, compute_metrics self = (Raise e, self).
Proof.
  intros Hempty.
  unfold StateLogModel.compute_metrics, bindM.
  rewrite (get_logs_eta infer_dtype self).
  destruct (get_logs self).1 as [logs | e] eqn:Hlogs; [| eauto].
  unfold get_self, lift, ret.
  destruct (mapM _ (metrics self)) as [md | e] eqn:Hmd; [| eauto].
  destruct (transpose md) as [[per_trade summary] | e] eqn:Htr; [| eauto].
  destruct (dict_getitem "sim_parameters" logs); [| eauto].
  destruct (concat per_trade); [| eauto].
  destruct (concat summary); [| eauto].
  destruct Hempty as [Ht | Hm].
  - apply get_logs_ok_inv in Hlogs as (times & snapshot & _ & _ & _ & Hget).
    unfold dict_getitem. rewrite Hget, Ht. simpl. eauto.
  - rewrite Hm in Hmd. injection Hmd as <-. discriminate.
Qed.

(** X16: when [compute_metrics] returns, the log has records and metrics;
    the first and the last table returned are the [sim_parameters] and
    [state_data] tables of [get_logs], the latter with one row per
    record; and the two middle ones are [concat] of the per-trade, resp.
    summary, outputs of the metrics, taken in the order of the metrics. *)
Theorem compute_metrics_returns (self : StateLog)
    (sim_parameters state_data : Table) (per_trade summary : Frame) :
  (compute_metrics self).1
  = Ok (sim_parameters, per_trade, summary, state_data) ->
  exists logs metric_data,
    (get_logs self).1 = Ok logs /\
    mapM (fun metric => compute metric logs) (metrics self) = Ok metric_data /\
    length metric_data = length (metrics self) /\
    metrics self <> [] /\
    state_per_trade self <> [] /\
    dict_get "sim_parameters" logs = Some sim_parameters /\
    dict_get "state_data" logs = Some state_data /\
    length (tbl_data state_data) = length (state_per_trade self) /\
    concat (map fst metric_data) = Ok per_trade /\
    concat (map snd metric_data) = Ok summary.
Proof.
  unfold StateLogModel.compute_metrics, bindM.
  rewrite (get_logs_eta infer_dtype self).
  destruct (get_logs self).1 as [logs | e] eqn:Hlogs; [| discriminate].
  unfold get_self, lift, ret.
  destruct (mapM _ (metrics self)) as [md | e] eqn:Hmd; [| discriminate].
  destruct md as [| m0 md]; [discriminate |]. cbn [transpose].
  unfold dict_getitem.
  destruct (dict_get "sim_parameters" logs) as [sp |] eqn:Hsp; [| discriminate].
  destruct (concat (map fst (m0 :: md))) as [pt |] eqn:Hpt; [| discriminate].
  destruct (concat (map snd (m0 :: md))) as [sm |] eqn:Hsm; [| discriminate].
  destruct (dict_get "state_data" logs) as [sd |] eqn:Hsd; [| discriminate].
  simpl. intros [= <- <- <- <-].
  exists logs, (m0 :: md).
  pose proof (mapM_length _ _ _ Hmd) as Hlen.
  apply get_logs_ok_inv in Hlogs as (times & snapshot & _ & _ & _ & Hget).
  rewrite Hget in Hsd.
  destruct (existsb (String.eqb "state_data")
              (df_columns (state_per_trade self))) eqn:Hcol;
    [| discriminate].
  injection Hsd as <-.
  split; [reflexivity |]. split; [exact Hmd |]. split; [exact Hlen |].
  split; [intros Hm; rewrite Hm in Hlen; discriminate |].
  split; [intros Ht; rewrite Ht in Hcol; discriminate |].
  split; [exact Hsp |]. split; [now rewrite Hget, Hcol |].
  split; [apply df_col_to_list_length | auto].
Qed.

(** X17: recording more trades only adds rows: if [get_logs] returned
    before further updates in a recognized mode and returns again after
    them, the timestamps being scalars, then every table it had (the run
    parameters apart) is still there, over the old index extended by one
    new timestamp per update, and with one more row per update. *)
Theorem get_logs_rows_append (self : StateLog)
    (logs logs' : list (string * Table))
    (calls : list (Pool * Controller * list (string * pyval)))
    (times' : list pyval) :
  (get_logs self).1 = Ok logs ->
  (get_logs (run_updates calls self)).1 = Ok logs' ->
  recognized_mode (sim_mode self) = true ->
  mapM record_time (state_per_trade (run_updates calls self)) = Ok times' ->
  Forall (fun ts => list_like ts = false) times' ->
  forall k table,
    k <> "sim_parameters" ->
    dict_get k logs = Some table ->
    exists table' new_times,
      dict_get k logs' = Some table' /\
      tbl_index table' = (tbl_index table ++ new_times)%list /\
      length new_times = length calls /\
      length (tbl_data table')
      = (length (tbl_data table) + length calls)%nat.
Proof.
  intros Hlogs Hlogs' Hmode Htimes' _ k table Hne Hk.
  apply get_logs_ok_inv in Hlogs
    as (times & snapshot & Htimes & Hrun & _ & Hget).
  apply get_logs_ok_inv in Hlogs'
    as (times0 & snapshot' & Htimes0 & Hrun' & _ & Hget').
  assert (times0 = times') as -> by congruence.
  destruct (run_updates_records get_pool_state get_controller_state
              calls self Hmode) as (_ & Hr & _ & recs & Ht & Hshape).
  pose proof (Forall2_length _ _ _ Hshape) as Hlen.
  rewrite Ht in Htimes'.
  apply mapM_app_inv in Htimes' as (ys & new_times & -> & Hys & Hnew).
  assert (ys = times) as -> by congruence.
  apply mapM_length in Hnew.
  rewrite Hget in Hk.
  destruct (existsb (String.eqb k) (df_columns (state_per_trade self)))
    eqn:Hcol.
  - injection Hk as <-. simpl.
    assert (Hcol' : existsb (String.eqb k)
                      (df_columns (state_per_trade (run_updates calls self)))
                    = true).
    { apply column_present. apply column_present in Hcol as (r & Hr0 & Hkr).
      exists r. split; [| exact Hkr]. rewrite Ht. apply elem_of_app. auto. }
    eexists _, new_times. rewrite Hget', Hcol'.
    split; [reflexivity |]. simpl.
    split; [reflexivity |].
    split; [congruence |].
    rewrite !df_col_to_list_length, Ht, length_app. congruence.
  - apply String.eqb_neq in Hne. rewrite Hne in Hk. discriminate.
Qed.

End Facts.

(** X9 (witness): a third trade on the two-trade run whose caller passes
    its own [state_data]. *)
Lemma update_keywords_override_witness :
  exists record,
    state_per_trade
      (update (fun price => PyDict [("price", PyInt price)]) demo_state
         [("price_sample", PyObj [("timestamp", PyInt 220)]);
          ("state_data", PyInt 7)] demo_log).2
    = (state_per_trade demo_log ++ [record])%list /\
    forall k,
      dict_get k record =
      match kw_last k [("price_sample", PyObj [("timestamp", PyInt 220)]);
                       ("state_data", PyInt 7)] with
      | Some v => Some v
      | None =>
          if String.eqb k "state_data" then
            Some (if eq_str (sim_mode demo_log) "pool"
                  then PyDict [("price", PyInt (pool demo_log))]
                  else demo_state (pool demo_log) (controller demo_log))
          else None
      end.
Proof.
  apply (update_keywords_override
           (fun price => PyDict [("price", PyInt price)]) demo_state demo_log).
  reflexivity.
Defined.

(** X12 (witness): the two-trade run followed by a trade recorded
    without a price sample. *)
Lemma get_logs_missing_sample_raises_witness :
  exists e,
    get_logs demo_infer
      (run_updates (fun price => PyDict [("price", PyInt price)]) demo_state
         [(1980, 6, [("volume", PyInt 3)])] demo_log)
    = (Raise e,
       run_updates (fun price => PyDict [("price", PyInt price)]) demo_state
         [(1980, 6, [("volume", PyInt 3)])] demo_log) /\
    (e = KeyError "price_sample" \/ e = AttributeError "timestamp").
Proof.
  apply (get_logs_missing_sample_raises demo_infer
           (run_updates (fun price => PyDict [("price", PyInt price)]) demo_state
              [(1980, 6, [("volume", PyInt 3)])] demo_log)
           [("state_data", demo_state 1980 6); ("volume", PyInt 3)]).
  - apply list_elem_of_In. vm_compute. auto.
  - eexists. reflexivity.
Defined.

(** X13 (witness): the two trades recorded on a log of mode [pools]. *)
Lemma get_logs_unrecognized_mode_raises_witness :
  get_logs demo_infer
    (run_updates (fun price => PyDict [("price", PyInt price)]) demo_state
       demo_calls
       (__init__ (Metric := unit) (fun _ => PyNone) (fun _ => PyNone)
          (fun _ : unit => PyNone) (fun _ => false) (fun m _ => m)
          2010 4 [] tt (PyStr "pools")))
  = (Raise (AttributeError "state_per_run"),
     run_updates (fun price => PyDict [("price", PyInt price)]) demo_state
       demo_calls
       (__init__ (Metric := unit) (fun _ => PyNone) (fun _ => PyNone)
          (fun _ : unit => PyNone) (fun _ => false) (fun m _ => m)
          2010 4 [] tt (PyStr "pools"))).
Proof.
  apply (get_logs_unrecognized_mode_raises demo_infer
           (fun _ => PyNone) (fun _ => PyNone) (fun _ : unit => PyNone)
           (fun price => PyDict [("price", PyInt price)]) demo_state
           (fun _ : unit => false) (fun m _ => m)
           2010 4 [] tt (PyStr "pools") demo_calls).
  reflexivity.
Defined.

(** X14 (witness): the two-trade run. *)
Lemma get_logs_keys_witness :
  exists logs,
    (get_logs demo_infer demo_log).1 = Ok logs /\
    exists snapshot,
      state_per_run demo_log = Some snapshot /\
      (forall k,
          (exists r, r ∈ state_per_trade demo_log /\ k ∈ map fst r) ->
          dict_get k logs
          = Some {| tbl_index := [PyInt 100; PyInt 160];
                    tbl_data :=
                      df_col_to_list demo_infer (state_per_trade demo_log) k |}) /\
      ((forall r, r ∈ state_per_trade demo_log -> "sim_parameters" ∉ map fst r) ->
       dict_get "sim_parameters" logs
       = Some {| tbl_index := [PyInt 0]; tbl_data := [snapshot] |}) /\
      (forall k,
          k <> "sim_parameters" ->
          (forall r, r ∈ state_per_trade demo_log -> k ∉ map fst r) ->
          dict_get k logs = None).
Proof.
  eexists. split; [reflexivity |].
  apply (get_logs_keys demo_infer demo_log _ [PyInt 100; PyInt 160]).
  - reflexivity.
  - reflexivity.
  - repeat constructor.
Defined.

(** X15 (witness): a pool-mode log with one metric and no record. *)
Lemma compute_metrics_needs_records_and_metrics_witness :
  exists e,
    compute_metrics demo_infer demo_compute demo_concat
      (__init__ (fun _ : unit => PyDict [("A", PyInt 100)])
         (fun _ : unit => PyNone) (fun _ : unit => PyNone)
         (fun _ => false) (fun m _ => m) tt tt ["pool_value"] tt (PyStr "pool"))
    = (Raise e,
       __init__ (fun _ : unit => PyDict [("A", PyInt 100)])
         (fun _ : unit => PyNone) (fun _ : unit => PyNone)
         (fun _ => false) (fun m _ => m) tt tt ["pool_value"] tt (PyStr "pool")).
Proof.
  apply (compute_metrics_needs_records_and_metrics
           demo_infer demo_compute demo_concat).
  left. reflexivity.
Defined.

(** X16 (witness): the two-trade run with its two metrics. *)
Lemma compute_metrics_returns_witness :
  exists sim_parameters per_trade summary state_data,
    (compute_metrics demo_infer demo_compute demo_concat demo_metric_log).1
    = Ok (sim_parameters, per_trade, summary, state_data) /\
    exists logs metric_data,
      (get_logs demo_infer demo_metric_log).1 = Ok logs /\
      mapM (fun metric => demo_compute metric logs) (metrics demo_metric_log)
      = Ok metric_data /\
      length metric_data = length (metrics demo_metric_log) /\
      metrics demo_metric_log <> [] /\
      state_per_trade demo_metric_log <> [] /\
      dict_get "sim_parameters" logs = Some sim_parameters /\
      dict_get "state_data" logs = Some state_data /\
      length (tbl_data state_data) = length (state_per_trade demo_metric_log) /\
      demo_concat (map fst metric_data) = Ok per_trade /\
      demo_concat (map snd metric_data) = Ok summary.
Proof.
  do 4 eexists. split; [reflexivity |].
  apply (compute_metrics_returns
           demo_infer demo_compute demo_concat demo_metric_log).
  reflexivity.
Defined.

(** X17 (witness): a third trade recorded on the two-trade run. *)
Lemma get_logs_rows_append_witness :
  exists logs logs',
    (get_logs demo_infer demo_log).1 = Ok logs /\
    (get_logs demo_infer
       (run_updates (fun price => PyDict [("price", PyInt price)]) demo_state
          [(1980, 6, [("price_sample", PyObj [("timestamp", PyInt 220)])])]
          demo_log)).1
    = Ok logs' /\
    forall k table,
      k <> "sim_parameters" ->
      dict_get k logs = Some table ->
      exists table' new_times,
        dict_get k logs' = Some table' /\
        tbl_index table' = (tbl_index table ++ new_times)%list /\
        length new_times = 1%nat /\
        length (tbl_data table') = (length (tbl_data table) + 1)%nat.
Proof.
  do 2 eexists. split; [reflexivity |]. split; [reflexivity |].
  apply (get_logs_rows_append demo_infer
           (fun price => PyDict [("price", PyInt price)]) demo_state
           demo_log _ _
           [(1980, 6, [("price_sample", PyObj [("timestamp", PyInt 220)])])]
           [PyInt 100; PyInt 160; PyInt 220]).
  - reflexivity.
  - reflexivity.
  - reflexivity.
  - reflexivity.
  - repeat constructor.
Defined.

End StateLogMore.

(** ** More on the simulated price aggregator *)

Module AggregatorMore.
Import Py Aggregator.

Section Facts.
Context {Timestamp Base : Type}.
Variable timestamp : Timestamp -> float64.
Variable float_mul_int : float64 -> Z -> float64.
Variable py_int : float64 -> result Z.
Variable super_prepare_for_run :
  state Base -> Prices Timestamp -> bool -> result (state Base).

Local Abbreviation prepare_for_run :=
  (prepare_for_run timestamp float_mul_int py_int super_prepare_for_run).

(** X18: on an empty price series [prepare_for_run] raises an
    [IndexError] whenever the base class method returns, with or without
    [keep_price]: from the row lookup when the price is to be set, from
    the index lookup otherwise. *)
Theorem prepare_for_run_empty_series (self self1 : state Base)
    (keep_price : bool) :
  super_prepare_for_run self [] keep_price = Ok self1 ->
  exists msg, prepare_for_run self [] keep_price = Raise (IndexError msg).
Proof.
  intros Hsuper. unfold Aggregator.prepare_for_run. rewrite Hsuper. simpl.
  destruct keep_price; simpl; eauto.
Qed.

(** X19: when [prepare_for_run] returns, the series was not empty, the
    base class method had returned, [last_timestamp] is the int of the
    first index entry's timestamp, and [last_price] is the int of the
    first price of the first row times [10**18], which therefore exists,
    unless [keep_price], in which case it is what the base class left;
    nothing else of the state differs from what the base class left. *)
Theorem prepare_for_run_returns (self r : state Base)
    (prices : Prices Timestamp) (keep_price : bool) :
  prepare_for_run self prices keep_price = Ok r ->
  exists self1 t0 row rest,
    prices = (t0, row) :: rest /\
    super_prepare_for_run self prices keep_price = Ok self1 /\
    py_int (timestamp t0) = Ok (last_timestamp r) /\
    base r = base self1 /\
    if keep_price then last_price r = last_price self1
    else exists p row',
        row = p :: row' /\
        py_int (float_mul_int p (10 ^ 18)) = Ok (last_price r).
Proof.
  unfold Aggregator.prepare_for_run.
  destruct (super_prepare_for_run self prices keep_price) as [self1 |] eqn:Hs;
    simpl; [| discriminate].
  destruct keep_price; simpl.
  - destruct prices as [| [t0 row] rest]; simpl; [discriminate |].
    destruct (py_int (timestamp t0)) as [ts |] eqn:Hts; simpl; [| discriminate].
    intros [= <-]. exists self1, t0, row, rest. simpl. auto.
  - destruct prices as [| [t0 row] rest]; simpl; [discriminate |].
    destruct row as [| p row']; simpl; [discriminate |].
    destruct (py_int (float_mul_int p (10 ^ 18))) as [v |] eqn:Hv; simpl;
      [| discriminate].
    destruct (py_int (timestamp t0)) as [ts |] eqn:Hts; simpl; [| discriminate].
    intros [= <-]. exists self1, t0, (p :: row'), rest. simpl.
    repeat split; auto. eauto.
Qed.
End Facts.

(** X18 (witness): the base class doing nothing. *)
Lemma prepare_for_run_empty_series_witness :
  exists msg,
    prepare_for_run (fun t : Z => t) (fun x k => x * k) (fun x => Ok x)
      (fun s _ _ => Ok s)
      {| last_price := 1; last_timestamp := 0; base := tt |} [] false
    = Raise (IndexError msg).
Proof.
  apply (prepare_for_run_empty_series
           (fun t : Z => t) (fun x k => x * k) (fun x => Ok x)
           (fun s _ _ => Ok s)
           {| last_price := 1; last_timestamp := 0; base := tt |}
           {| last_price := 1; last_timestamp := 0; base := tt |} false).
  reflexivity.
Defined.

(** X19 (witness): a one-row series, the base class doing nothing. *)
Lemma prepare_for_run_returns_witness :
  exists (self1 : state unit) (t0 : Z) row rest,
    [(1700000000, [2000; 7])] = (t0, row) :: rest /\
    Ok {| last_price := 1; last_timestamp := 0; base := tt |} = Ok self1 /\
    Ok t0 = Ok 1700000000 /\
    tt = base self1 /\
    exists p row',
      row = p :: row' /\ Ok (p * 10 ^ 18) = Ok (2000 * 10 ^ 18).
Proof.
  apply (prepare_for_run_returns
           (fun t : Z => t) (fun x k => x * k) (fun x => Ok x)
           (fun s _ _ => Ok s)
           {| last_price := 1; last_timestamp := 0; base := tt |}
           {| last_price := 2000 * 10 ^ 18; last_timestamp := 1700000000;
              base := tt |}
           [(1700000000, [2000; 7])] false).
  reflexivity.
Defined.

End AggregatorMore.
